(** * wavm-run: import resolution, stub synthesis and the run pipeline

    A shallow embedding of [Programs/wavm-run/wavm-run.cpp]: the
    [RootResolver] (its [resolve] and [getStubObject] methods), [loadModule],
    [run], [showHelp] and [main].

    The program is a thin driver over the WAVM runtime, the Emscripten shim,
    the WAST parser and the IR library.  None of those is part of the file, so
    they enter the development in two ways:
    - what the driver needs to know about them is written down once, as small
      definitions whose comment starts with "Modelled from the spec";
    - everything else is an oracle, a field of the record [Engine], and every
      theorem holds for every engine.

    Objects live in a compartment.  A pointer to an object is an address
    together with the object it designates; the compartment lists the objects
    allocated so far, the address of an object being its position. *)

From Stdlib Require Import ZArith Lia.
From stdpp Require Import base option list strings gmap pretty.


(** ** IR types (WAVM/IR/Types.h, WAVM/IR/Value.h, WAVM/IR/Operators.h)

    The headers are not part of the file.  The source names one value type,
    [ValueType::i32], five extern kinds (and a default branch for anything
    else), and two operators. *)

(** Modelled from the spec: the value types of the IR, of which the source
    and the spec single out the "32-bit integer type", [ValueType::i32]; any
    other type is kept by its code. *)
Inductive ValueType : Type :=
| i32
| otherValueType (code : N).

#[global] Instance ValueType_eq_dec : EqDecision ValueType.
Proof. solve_decision. Defined.

(** Modelled from the spec: a "function signature", its "parameter/result
    type sequences" ([IR::FunctionType]); [params().size()] is
    [length params]. *)
Record FunctionType : Type := mkFunctionType {
  results : list ValueType;
  params : list ValueType
}.

#[global] Instance FunctionType_eq_dec : EqDecision FunctionType.
Proof. solve_decision. Defined.

(** Modelled from the spec: the "limits (initial/maximum)" of a memory or a
    table ([IR::SizeConstraints]). *)
Record SizeConstraints : Type := mkSizeConstraints {
  initial : N;
  maximum : option N
}.

(** Modelled from the spec: "memory limits" ([IR::MemoryType]). *)
Record MemoryType : Type := mkMemoryType {
  memorySize : SizeConstraints
}.

(** Modelled from the spec: "table limits+element type" ([IR::TableType]). *)
Record TableType : Type := mkTableType {
  elementType : ValueType;
  tableSize : SizeConstraints
}.

(** Modelled from the spec: "global value-type+mutability"
    ([IR::GlobalType]). *)
Record GlobalType : Type := mkGlobalType {
  valueType : ValueType;
  isMutable : bool
}.

(** Modelled from the spec: "exception-tag signature", its parameter types
    ([IR::ExceptionType]). *)
Record ExceptionType : Type := mkExceptionType {
  exceptionParams : list ValueType
}.

#[global] Instance SizeConstraints_eq_dec : EqDecision SizeConstraints.
Proof. solve_decision. Defined.
#[global] Instance MemoryType_eq_dec : EqDecision MemoryType.
Proof. solve_decision. Defined.
#[global] Instance TableType_eq_dec : EqDecision TableType.
Proof. solve_decision. Defined.
#[global] Instance GlobalType_eq_dec : EqDecision GlobalType.
Proof. solve_decision. Defined.
#[global] Instance ExceptionType_eq_dec : EqDecision ExceptionType.
Proof. solve_decision. Defined.

(** Modelled from the spec: "the closed set of capability shapes {function,
    memory, table, global, exception-tag}" ([IR::ExternKind]), under the
    names the switch of [getStubObject] gives them.  The enumeration is
    stored in a byte and the switch has a [default] branch: [otherKind]
    stands for any value that is none of the five. *)
Module ExternKind.
Inductive t : Type :=
| function
| table
| memory
| global
| exceptionType
| otherKind (raw : N).
End ExternKind.

Abbreviation ExternKind := ExternKind.t.

#[global] Instance ExternKind_eq_dec : EqDecision ExternKind.
Proof. solve_decision. Defined.

(** Modelled from the spec: "ExternType is a closed variant over {function
    signature, memory limits, table limits+element type, global
    value-type+mutability, exception-tag signature}" ([IR::ExternType]: a
    kind and the type of that kind); [OtherExtern] is a value whose kind is
    none of the five. *)
Inductive ExternType : Type :=
| FunctionExtern (type : FunctionType)
| TableExtern (type : TableType)
| MemoryExtern (type : MemoryType)
| GlobalExtern (type : GlobalType)
| ExceptionTypeExtern (type : ExceptionType)
| OtherExtern (raw : N).

#[global] Instance ExternType_eq_dec : EqDecision ExternType.
Proof. solve_decision. Defined.

(** [type.kind] *)
Definition kind (type : ExternType) : ExternKind :=
  match type with
  | FunctionExtern _ => ExternKind.function
  | TableExtern _ => ExternKind.table
  | MemoryExtern _ => ExternKind.memory
  | GlobalExtern _ => ExternKind.global
  | ExceptionTypeExtern _ => ExternKind.exceptionType
  | OtherExtern raw => ExternKind.otherKind raw
  end.

(** Whether a kind is one of the five of the closed set. *)
Definition closedKind (k : ExternKind) : bool :=
  match k with
  | ExternKind.otherKind _ => false
  | _ => true
  end.

(** Modelled from the spec: the payload of a value ([IR::UntaggedValue], a
    union of 16 bytes), here the 128-bit number its bytes spell, little
    endian. *)
Definition UntaggedValue : Type := Z.

(** Modelled from the spec: [IR::UntaggedValue()], "the type's zero/default
    value": every byte is zero. *)
Definition UntaggedValue_default : UntaggedValue := 0%Z.

(** Modelled from the spec: the "32-bit integer" a payload holds, the [i32]
    member of the union: its low 32 bits, read as a signed integer. *)
Definition untagged_i32 (u : UntaggedValue) : Z :=
  let low := (u mod 2 ^ 32)%Z in
  if (low <? 2 ^ 31)%Z then low else (low - 2 ^ 32)%Z.

(** Modelled from the spec: a result or an initial value, a payload with its
    value type ([IR::Value(type, untaggedValue)]). *)
Record Value : Type := mkValue {
  valType : ValueType;
  untagged : UntaggedValue
}.

#[global] Instance Value_eq_dec : EqDecision Value.
Proof. solve_decision. Defined.

(** Modelled from the spec: the "unconditional-trap instruction"
    ([unreachable]) and the "normal end marker" ([end]), the two operators
    the source encodes; any other operator is kept by its opcode. *)
Inductive Operator : Type :=
| unreachable
| end_
| otherOperator (opcode : N).

#[global] Instance Operator_eq_dec : EqDecision Operator.
Proof. solve_decision. Defined.

(** Modelled from the spec: a function body, "one unconditional-trap
    instruction followed by a normal end marker", is the sequence of its
    instructions ([ArrayOutputStream], whose [getBytes] is the sequence). *)
Definition CodeStream : Type := list Operator.

(** Modelled from the spec: [OperatorEncoderStream]; each call appends one
    instruction to the body. *)
Definition encode (op : Operator) (codeStream : CodeStream) : CodeStream :=
  codeStream ++ [op].

(** ** IR modules (WAVM/IR/Module.h) *)

(** Modelled from the spec: a function definition of the "ModuleDescriptor",
    as the source fills one in: the index of its type, its local types, its
    body, its branch tables. *)
Record FunctionDef : Type := mkFunctionDef {
  typeIndex : nat;
  nonParameterLocalTypes : list ValueType;
  code : CodeStream;
  branchTables : list (list nat)
}.

(** Modelled from the spec: an export declaration, as the source fills one
    in: the name, the kind, the index of the exported definition. *)
Record Export : Type := mkExport {
  exportedAs : string;
  exportKind : ExternKind;
  exportIndex : nat
}.

(** Modelled from the spec: "ImportDeclaration: (moduleName: string,
    exportName: string, expectedType: ExternType)". *)
Record Import : Type := mkImport {
  importModuleName : string;
  importExportName : string;
  importType : ExternType
}.

(** Modelled from the spec: the "diagnostic label" of a function, as the
    source fills it in: its name, the names of its locals and of its
    labels. *)
Record FunctionNames : Type := mkFunctionNames {
  functionName : string;
  localNames : list string;
  labelNames : list string
}.

(** Modelled from the spec: the diagnostic labels of a module
    ([IR::DisassemblyNames]); the source fills in those of functions. *)
Record DisassemblyNames : Type := mkDisassemblyNames {
  functionNames : list FunctionNames
}.

(** Modelled from the spec: "ModuleDescriptor: declared types, function
    definitions, import declarations, export declarations" ([IR::Module]).
    The definitions of the other kinds are kept by their types, the start
    function by its index, and the names are those [setDisassemblyNames]
    attaches. *)
Record IRModule : Type := mkIRModule {
  types : list FunctionType;
  imports : list Import;
  functionDefs : list FunctionDef;
  tableDefs : list TableType;
  memoryDefs : list MemoryType;
  globalDefs : list GlobalType;
  exceptionTypeDefs : list ExceptionType;
  exports : list Export;
  startFunctionIndex : option nat;
  names : DisassemblyNames
}.

(** Modelled from the spec: a default-constructed [DisassemblyNames], with
    no label. *)
Definition emptyDisassemblyNames : DisassemblyNames :=
  {| functionNames := [] |}.

(** Modelled from the spec: a default-constructed [IR::Module], which
    declares nothing. *)
Definition emptyModule : IRModule :=
  {| types := []; imports := []; functionDefs := []; tableDefs := [];
     memoryDefs := []; globalDefs := []; exceptionTypeDefs := [];
     exports := []; startFunctionIndex := None;
     names := emptyDisassemblyNames |}.

(** Modelled from the spec: [IR::setDisassemblyNames(module, names)], which
    tags the module with its diagnostic labels. *)
Definition setDisassemblyNames (m : IRModule) (n : DisassemblyNames) : IRModule :=
  {| types := types m; imports := imports m; functionDefs := functionDefs m;
     tableDefs := tableDefs m; memoryDefs := memoryDefs m;
     globalDefs := globalDefs m; exceptionTypeDefs := exceptionTypeDefs m;
     exports := exports m; startFunctionIndex := startFunctionIndex m;
     names := n |}.

(** ** Runtime objects (WAVM/Runtime/Runtime.h) *)

(** Modelled from the spec: the objects of the runtime, one kind of object
    per extern kind; an object keeps its type and what it was created with
    (a function its body and its label, a global its initial value, the
    others their name). *)
Inductive Object : Type :=
| FunctionObject (type : FunctionType) (body : CodeStream) (debugName : string)
| TableObject (type : TableType) (debugName : string)
| MemoryObject (type : MemoryType) (debugName : string)
| GlobalObject (type : GlobalType) (initialValue : Value)
| ExceptionTypeObject (type : ExceptionType) (debugName : string).

#[global] Instance Object_eq_dec : EqDecision Object.
Proof. solve_decision. Defined.

(** [Object*]: the address, and the object at that address. *)
Record ObjectPtr : Type := mkObjectPtr {
  address : nat;
  target : Object
}.

#[global] Instance ObjectPtr_eq_dec : EqDecision ObjectPtr.
Proof. solve_decision. Defined.

(** Modelled from the spec: [getObjectType(object)], the "actual
    ExternType" of an object. *)
Definition getObjectType (object : Object) : ExternType :=
  match object with
  | FunctionObject type _ _ => FunctionExtern type
  | TableObject type _ => TableExtern type
  | MemoryObject type _ => MemoryExtern type
  | GlobalObject type _ => GlobalExtern type
  | ExceptionTypeObject type _ => ExceptionTypeExtern type
  end.

(** Modelled from the spec: the entry point is "the designated callable".
    [asFunctionNullable(object)] is the object when it is a function, and
    null otherwise (and for null). *)
Definition asFunctionNullable (object : option ObjectPtr) : option ObjectPtr :=
  match object with
  | Some p =>
      match target p with
      | FunctionObject _ _ _ => Some p
      | _ => None
      end
  | None => None
  end.

(** Modelled from the spec: [getFunctionType(function)], the signature of a
    function object. *)
Definition getFunctionType (f : ObjectPtr) : FunctionType :=
  match target f with
  | FunctionObject type _ _ => type
  | _ => mkFunctionType [] []
  end.

(** Modelled from the spec: "Compartment: an isolation/allocation arena
    owning all instances and objects created during one run"; here the
    objects allocated in it, in order of allocation. *)
Definition Compartment : Type := list Object.

(** Modelled from the spec: "an already-instantiated module's export table
    (export name -> object)", and its optional start function. *)
Record ModuleInstance : Type := mkModuleInstance {
  exportMap : gmap string ObjectPtr;
  startFunction : option ObjectPtr
}.

(** Modelled from the spec: the "executable artifact" a module descriptor is
    compiled into ([Runtime::Module]); it keeps the descriptor, the object
    code being the engine's business. *)
Record Module : Type := mkModule {
  ir : IRModule
}.

(** Modelled from the spec: the instance of the "environment shim"
    ([Emscripten::Instance]), of which the source reads the two namespaces it
    registers, [env] and [asm2wasm]. *)
Record EmscriptenInstance : Type := mkEmscriptenInstance {
  env : ModuleInstance;
  asm2wasm : ModuleInstance
}.

(** ** The state of a run, and computations over it *)

(** What the program does to the outside, in the order it does it: what it
    writes to [std::cout], and its calls into the collaborators. *)
Inductive Event : Type :=
| Output (text : string)
| CompileModule
| CreateCompartment
| CreateContext
| EmscriptenInstantiate (created : bool)
| InstantiateModule (debugName : string)
| GetStartFunction
| GetInstanceExport (name : string)
| InvokeFunction (function : ObjectPtr) (arguments : list Value)
| InitializeGlobals
| InjectCommandArgs (argStrings : list string)
| SetUnhandledExceptionHandler.

#[global] Instance Event_eq_dec : EqDecision Event.
Proof. solve_decision. Defined.

Record RunState : Type := mkRunState {
  compartment : Compartment;
  trace : list Event
}.

Definition initialState : RunState :=
  {| compartment := []; trace := [] |}.

(** How the process can end other than by returning from [main]. *)
Inductive Fault : Type :=
| InternalInvariantFault     (* Errors::unreachable() *)
| PreconditionViolation      (* a failed wavmAssert *)
| RuntimeTrap                (* a trap, or any other runtime exception, in an invoke *)
| NullDereference.           (* a null pointer handed to a collaborator *)

#[global] Instance Fault_eq_dec : EqDecision Fault.
Proof. solve_decision. Defined.

Inductive Res (A : Type) : Type :=
| Ok (a : A)
| Fatal (f : Fault).

Arguments Ok {A} a.
Arguments Fatal {A} f.

(** A computation: from the state before to a result (or a fault, which ends
    the process on the spot) and the state after. *)
Definition M (A : Type) : Type := RunState -> Res A * RunState.

Definition ret {A : Type} (a : A) : M A := fun st => (Ok a, st).

Definition bind {A B : Type} (c : M A) (k : A -> M B) : M B := fun st =>
  match c st with
  | (Ok a, st') => k a st'
  | (Fatal f, st') => (Fatal f, st')
  end.

Declare Scope M_scope.
Delimit Scope M_scope with M.
Notation "x ← y ; z" := (bind y (fun x => z))
  (at level 20, y at level 100, z at level 200, only parsing) : M_scope.
Notation "x ;; z" := (bind x (fun _ => z))
  (at level 100, z at level 200, only parsing, right associativity) : M_scope.
Local Open Scope M_scope.

Definition fatal {A : Type} (f : Fault) : M A := fun st => (Fatal f, st).

Definition Res_map {A B : Type} (g : A -> B) (r : Res A) : Res B :=
  match r with
  | Ok a => Ok (g a)
  | Fatal f => Fatal f
  end.

(** The state once [events] have happened, in that order. *)
Definition after (st : RunState) (events : list Event) : RunState :=
  {| compartment := compartment st; trace := trace st ++ events |}.

Definition log (e : Event) : M unit := fun st => (Ok tt, after st [e]).

(** [std::cout << piece << piece << ...]: the pieces, one after the other. *)
Definition output (pieces : list string) : M unit :=
  log (Output (foldr String.append EmptyString pieces)).

(** A new object in the compartment: its address is the next free one. *)
Definition allocate (o : Object) : M ObjectPtr := fun st =>
  (Ok {| address := length (compartment st); target := o |},
   {| compartment := compartment st ++ [o]; trace := trace st |}).

(** ** The collaborators *)

(** The collaborators as oracles.  An answer may depend on everything that
    happened before, so the stateful ones are given the state of the run. *)
Record Engine : Type := mkEngine {
  (* loadFile (WAVM/Inline/CLI.h): the bytes of the file, if it can be read *)
  engine_loadFile : string -> option (list Byte.byte);
  (* WAST::parseModule: the module, or the parse errors *)
  engine_parseModule : list Byte.byte -> IRModule + list string;
  (* WAST::reportParseErrors: what it prints *)
  engine_reportParseErrors : string -> list string -> string;
  (* asString(ExternType) *)
  engine_asString : ExternType -> string;
  (* isA(object, type) *)
  engine_isA : Object -> ExternType -> bool;
  (* Emscripten::instantiate: the shim instance, or null; and the compartment after *)
  engine_emscriptenInstantiate :
    RunState -> IRModule -> option EmscriptenInstance * Compartment;
  (* instantiateModule: the instance, or null; and the compartment after *)
  engine_instantiateModule :
    RunState -> Module -> list (option ObjectPtr) -> string ->
    option ModuleInstance * Compartment;
  (* the execution of a function: its results, or a trap *)
  engine_invokeFunction : RunState -> ObjectPtr -> list Value -> option (list Value);
  (* Emscripten::initializeGlobals: whether it returns (it calls into the module) *)
  engine_initializeGlobals : RunState -> IRModule -> ModuleInstance -> bool;
  (* Emscripten::injectCommandArgs: the two values it produces *)
  engine_injectCommandArgs :
    RunState -> EmscriptenInstance -> list string -> Value * Value
}.

(** Modelled from the spec: [Runtime::createCompartment()]; "a single
    compartment [...] is created once at pipeline start": it is new, and
    empty. *)
Definition createCompartment : M unit := fun st =>
  (Ok tt, {| compartment := []; trace := trace st ++ [CreateCompartment] |}).

(** Modelled from the spec: [Runtime::createContext(compartment)], of which
    only the call is kept. *)
Definition createContext : M unit := log CreateContext.

(** Modelled from the spec: [Runtime::compileModule(irModule)], which
    "compiles a module descriptor into an executable artifact". *)
Definition compileModule (irModule : IRModule) : M Module :=
  log CompileModule;; ret {| ir := irModule |}.

(** Modelled from the spec: whether a module is "a minimal executable
    artifact" of functions: it declares nothing but types, function
    definitions and exports. *)
Definition functionsOnly (m : IRModule) : bool :=
  match imports m, tableDefs m, memoryDefs m with
  | [], [], [] =>
      match globalDefs m, exceptionTypeDefs m, startFunctionIndex m with
      | [], [], None => true
      | _, _, _ => false
      end
  | _, _, _ => false
  end.

(** Modelled from the spec: the "callable object" of the [i]-th function
    definition, "tagged with the exact requested signature and a diagnostic
    label": its type is the declared one, its body the body of the
    definition, its name the label. *)
Definition functionObject (m : IRModule) (i : nat) (def : FunctionDef) : option Object :=
  (type ← types m !! typeIndex def;
   Some (FunctionObject type (code def)
           (from_option functionName EmptyString (functionNames (names m) !! i))))%stdpp.

(** Modelled from the spec: the callable objects of a module, one per
    function definition. *)
Definition functionObjects (m : IRModule) : option (list Object) :=
  mapM (fun '(i, def) => functionObject m i def) (imap pair (functionDefs m)).

(** Modelled from the spec: the entry of the export table for an export of a
    function: its name, and the object of the function at that index (the
    objects of the module are allocated from address [base] on). *)
Definition functionExport (base : nat) (objects : list Object) (e : Export)
  : option (string * ObjectPtr) :=
  match exportKind e with
  | ExternKind.function =>
      (o ← objects !! exportIndex e;
       Some (exportedAs e, {| address := base + exportIndex e; target := o |}))%stdpp
  | _ => None
  end.

(** Modelled from the spec: "builds a minimal executable artifact consisting
    of a single function [...] tagged with the exact requested signature and
    a diagnostic label [...]; compiles and instantiates it through the
    external execution engine; returns the resulting callable object."
    Instantiating a module that declares only functions allocates one
    function object per definition and exports them under their export
    names; the instantiation of any other module is the engine's answer. *)
Definition instantiateFunctions (m : IRModule) (base : nat)
  : option (ModuleInstance * list Object) :=
  if functionsOnly m then
    (objects ← functionObjects m;
     entries ← mapM (functionExport base objects) (exports m);
     Some ({| exportMap := list_to_map entries; startFunction := None |}, objects))%stdpp
  else None.

(** Modelled from the spec: [instantiateModule(compartment, module, imports,
    debugName)], "an opaque service", except on a module of functions only,
    where it is [instantiateFunctions]; the instance may be null. *)
Definition instantiateModule (E : Engine) (module : Module)
    (imports : list (option ObjectPtr)) (debugName : string)
  : M (option ModuleInstance) :=
  log (InstantiateModule debugName);;
  fun st =>
    match instantiateFunctions (ir module) (length (compartment st)) with
    | Some (instance, objects) =>
        (Ok (Some instance),
         {| compartment := compartment st ++ objects; trace := trace st |})
    | None =>
        let '(instance, c) := engine_instantiateModule E st module imports debugName in
        (Ok instance, {| compartment := c; trace := trace st |})
    end.

(** Modelled from the spec: [getInstanceExport(moduleInstance, name)], the
    lookup in the "export table (export name -> object)": the object, or
    null. *)
Definition getInstanceExport (moduleInstance : ModuleInstance) (name : string)
  : M (option ObjectPtr) :=
  log (GetInstanceExport name);; ret (exportMap moduleInstance !! name).

(** Modelled from the spec: "Trap: an unconditional runtime divergence", and
    a function whose body is the unconditional-trap instruction "always
    diverges via a trap, regardless of arguments".  A trap is not recovered:
    it ends the process.  What any other body does is the engine's answer. *)
Definition execute (E : Engine) (st : RunState) (function : ObjectPtr)
    (arguments : list Value) : Res (list Value) :=
  match target function with
  | FunctionObject _ (unreachable :: _) _ => Fatal RuntimeTrap
  | _ =>
      match engine_invokeFunction E st function arguments with
      | Some functionResults => Ok functionResults
      | None => Fatal RuntimeTrap
      end
  end.

(** Modelled from the spec: [invokeFunctionChecked(context, function,
    arguments)], "a single blocking call into the external engine". *)
Definition invokeFunctionChecked (E : Engine) (function : ObjectPtr)
    (arguments : list Value) : M (list Value) :=
  log (InvokeFunction function arguments);;
  fun st => (execute E st function arguments, st).

(** Modelled from the spec: "allocates a real memory object sized to the
    requested limits". *)
Definition createMemory (type : MemoryType) (debugName : string) : M ObjectPtr :=
  allocate (MemoryObject type debugName).

(** Modelled from the spec: "allocates a real table object sized to the
    requested limits and element type". *)
Definition createTable (type : TableType) (debugName : string) : M ObjectPtr :=
  allocate (TableObject type debugName).

(** Modelled from the spec: "allocates a real global slot of the requested
    value type and mutability", holding the value it is given. *)
Definition createGlobal (type : GlobalType) (initialValue : Value) : M ObjectPtr :=
  allocate (GlobalObject type initialValue).

(** Modelled from the spec: "allocates a real exception-type tag with the
    requested parameter signature". *)
Definition createExceptionType (type : ExceptionType) (debugName : string)
  : M ObjectPtr :=
  allocate (ExceptionTypeObject type debugName).

(** Modelled from the spec: [wavmAssert(condition)]; when the condition does
    not hold the run "fails with a precondition violation". *)
Definition wavmAssert (condition : bool) : M unit :=
  if condition then ret tt else fatal PreconditionViolation.

(** [Emscripten::instantiate(compartment, irModule)]: the engine's answer. *)
Definition Emscripten_instantiate (E : Engine) (irModule : IRModule)
  : M (option EmscriptenInstance) := fun st =>
  let '(instance, c) := engine_emscriptenInstantiate E st irModule in
  (Ok instance,
   {| compartment := c;
      trace := trace st ++ [EmscriptenInstantiate (bool_decide (is_Some instance))] |}).

(** [Emscripten::initializeGlobals(context, irModule, moduleInstance)]: the
    engine's answer.  It calls into the module, and a trap there ends the
    process. *)
Definition Emscripten_initializeGlobals (E : Engine) (irModule : IRModule)
    (moduleInstance : ModuleInstance) : M unit :=
  log InitializeGlobals;;
  fun st =>
    if engine_initializeGlobals E st irModule moduleInstance
    then (Ok tt, st) else (Fatal RuntimeTrap, st).

(** Modelled from the spec: [Emscripten::injectCommandArgs(instance,
    argStrings, outInvokeArgs)] "produces the two argument values", which
    are the engine's answer. *)
Definition Emscripten_injectCommandArgs (E : Engine) (instance : EmscriptenInstance)
    (argStrings : list string) : M (list Value) :=
  log (InjectCommandArgs argStrings);;
  fun st =>
    let '(argc, argv) := engine_injectCommandArgs E st instance argStrings in
    (Ok [argc; argv], st).

(** Modelled from the spec: [getStartFunction(moduleInstance)], the
    "(optional) start function" of the instance. *)
Definition getStartFunction (moduleInstance : ModuleInstance) : M (option ObjectPtr) :=
  log GetStartFunction;; ret (startFunction moduleInstance).

(** ** RootResolver (lines 22-98) *)

Definition newline : string := String (Ascii.ascii_of_nat 10) EmptyString.

Record RootResolver : Type := mkRootResolver {
  moduleNameToInstanceMap : gmap string ModuleInstance
}.

(** Modelled from the spec: [moduleNameToInstanceMap.set(name, instance)] on
    the "mapping from module name to an already-instantiated module"; names
    are unique, a later binding replacing an earlier one. *)
Definition set (name : string) (instance : ModuleInstance) (r : RootResolver)
  : RootResolver :=
  {| moduleNameToInstanceMap := <[name := instance]> (moduleNameToInstanceMap r) |}.

(** [module.types.push_back], [module.functions.defs.push_back],
    [module.exports.push_back], [names.functions.push_back]. *)
Definition types_push_back (t : FunctionType) (m : IRModule) : IRModule :=
  {| types := types m ++ [t]; imports := imports m; functionDefs := functionDefs m;
     tableDefs := tableDefs m; memoryDefs := memoryDefs m;
     globalDefs := globalDefs m; exceptionTypeDefs := exceptionTypeDefs m;
     exports := exports m; startFunctionIndex := startFunctionIndex m;
     names := names m |}.

Definition functions_defs_push_back (d : FunctionDef) (m : IRModule) : IRModule :=
  {| types := types m; imports := imports m; functionDefs := functionDefs m ++ [d];
     tableDefs := tableDefs m; memoryDefs := memoryDefs m;
     globalDefs := globalDefs m; exceptionTypeDefs := exceptionTypeDefs m;
     exports := exports m; startFunctionIndex := startFunctionIndex m;
     names := names m |}.

Definition exports_push_back (e : Export) (m : IRModule) : IRModule :=
  {| types := types m; imports := imports m; functionDefs := functionDefs m;
     tableDefs := tableDefs m; memoryDefs := memoryDefs m;
     globalDefs := globalDefs m; exceptionTypeDefs := exceptionTypeDefs m;
     exports := exports m ++ [e]; startFunctionIndex := startFunctionIndex m;
     names := names m |}.

Definition functions_push_back (n : FunctionNames) (d : DisassemblyNames)
  : DisassemblyNames :=
  {| functionNames := functionNames d ++ [n] |}.

(** Lines 53-66: the module of a stub function.  (Lines 67-69 validate it;
    the module is well formed whatever the signature, its one type index and
    its one export index being in range and [unreachable] fitting any
    stack.) *)
Definition stubCode : CodeStream :=
  let codeStream := [] in
  let codeStream := encode unreachable codeStream in
  let codeStream := encode end_ codeStream in
  codeStream.

Definition stubIRModule (exportName : string) (functionType : FunctionType) : IRModule :=
  let stubIRModule := emptyModule in
  let stubModuleNames := emptyDisassemblyNames in
  let stubIRModule := types_push_back functionType stubIRModule in
  let stubIRModule :=
    functions_defs_push_back
      {| typeIndex := 0; nonParameterLocalTypes := []; code := stubCode;
         branchTables := [] |} stubIRModule in
  let stubIRModule :=
    exports_push_back
      {| exportedAs := "importStub"; exportKind := ExternKind.function; exportIndex := 0 |}
      stubIRModule in
  let stubModuleNames :=
    functions_push_back
      {| functionName := "importStub: " +:+ exportName; localNames := [];
         labelNames := [] |} stubModuleNames in
  setDisassemblyNames stubIRModule stubModuleNames.

(** [RootResolver::getStubObject] (lines 49-97).  The result is an
    [Object*], which can be null. *)
Definition getStubObject (E : Engine) (exportName : string) (type : ExternType)
  : M (option ObjectPtr) :=
  match type with
  | FunctionExtern functionType =>
      stubModule ← compileModule (stubIRModule exportName functionType);
      stubModuleInstance ← instantiateModule E stubModule [] "importStub";
      match stubModuleInstance with
      | Some stubModuleInstance => getInstanceExport stubModuleInstance "importStub"
      | None => fatal NullDereference
      end
  | MemoryExtern memoryType =>
      object ← createMemory memoryType exportName; ret (Some object)
  | TableExtern tableType =>
      object ← createTable tableType exportName; ret (Some object)
  | GlobalExtern globalType =>
      object ← createGlobal globalType
                 {| valType := valueType globalType;
                    untagged := UntaggedValue_default |};
      ret (Some object)
  | ExceptionTypeExtern exceptionType =>
      object ← createExceptionType exceptionType "importStub"; ret (Some object)
  | OtherExtern _ => fatal InternalInvariantFault
  end.

(** [RootResolver::resolve] (lines 28-47): the flag it returns, and
    [outObject]. *)
Definition resolve (E : Engine) (resolver : RootResolver)
    (moduleName exportName : string) (type : ExternType)
  : M (bool * option ObjectPtr) :=
  outObject ←
    match moduleNameToInstanceMap resolver !! moduleName with
    | Some namedInstance => getInstanceExport namedInstance exportName
    | None => ret None
    end;
  match outObject with
  | Some object =>
      if engine_isA E (target object) type then ret (true, Some object)
      else
        output ["Resolved import %s.%s to a %s, but was expecting %s" +:+ newline;
                moduleName; exportName;
                engine_asString E (getObjectType (target object));
                engine_asString E type];;
        ret (false, Some object)
  | None =>
      outObject ← getStubObject E exportName type;
      ret (true, outObject)
  end.

(** ** Linking (WAVM/Runtime/Linker.h) *)

(** Modelled from the spec: "LinkResult": the bindings in declaration order,
    the missing imports, and whether the latter list is empty. *)
Record LinkResult : Type := mkLinkResult {
  resolvedImports : list (option ObjectPtr);
  missingImports : list Import;
  success : bool
}.

(** Modelled from the spec (section 4.3): "Iterates the module's import
    declarations in declaration order, invoking ImportResolver for each.
    Collects every resulting binding into the ordered ResolvedImport list;
    collects every type-mismatch failure into the missing-imports list.  Does
    not stop early on the first failure [...].  Success is defined as an
    empty missing-imports list". *)
Fixpoint linkImports
    (resolver : string -> string -> ExternType -> M (bool * option ObjectPtr))
    (declared : list Import) : M (list (option ObjectPtr) * list Import) :=
  match declared with
  | [] => ret ([], [])
  | import :: rest =>
      resolved ←
        resolver (importModuleName import) (importExportName import)
          (importType import);
      linked ← linkImports resolver rest;
      ret (if resolved.1
           then (resolved.2 :: linked.1, linked.2)
           else (linked.1, import :: linked.2))
  end.

(** Modelled from the spec: [linkModule(irModule, resolver)], "link(
    moduleDescriptor, resolver) -> LinkResult", with "Success [...] defined
    as an empty missing-imports list". *)
Definition linkModule
    (irModule : IRModule)
    (resolver : string -> string -> ExternType -> M (bool * option ObjectPtr))
  : M LinkResult :=
  linked ← linkImports resolver (imports irModule);
  ret {| resolvedImports := linked.1; missingImports := linked.2;
         success := Nat.eqb (length linked.2) 0 |}.

(** ** The driver (lines 100-241) *)

Definition EXIT_SUCCESS : Z := 0.
Definition EXIT_FAILURE : Z := 1.

(** [PRIu64] (inttypes.h): a string literal, here its LP64 expansion. *)
Definition PRIu64 : string := "lu".

(** [loadModule] (lines 100-117): the module, or [false]. *)
Definition loadModule (E : Engine) (filename : string) : M (option IRModule) :=
  match engine_loadFile E filename with
  | None => ret None
  | Some fileBytes =>
      let fileBytes := fileBytes ++ [Byte.x00] in
      match engine_parseModule E fileBytes with
      | inl outModule => ret (Some outModule)
      | inr parseErrors =>
          output ["Error parsing WebAssembly text file:" +:+ newline];;
          output [engine_reportParseErrors E filename parseErrors];;
          ret None
      end
  end.

(** [CommandLineOptions] (lines 119-122).  [filename] is null until set;
    [args] points into [argv]: it is the tokens from there to the vector's
    terminating null. *)
Record CommandLineOptions : Type := mkCommandLineOptions {
  filename : option string;
  args : list string
}.

(** Lines 204-208: the exit status for the results of the call. *)
Definition mapExitStatus (functionResults : list Value) : Z :=
  match functionResults with
  | [result] =>
      if bool_decide (valType result = i32)
      then untagged_i32 (untagged result)
      else EXIT_SUCCESS
  | _ => EXIT_SUCCESS
  end.

(** Lines 184-208 of [run]: the arguments for the entry point by its arity,
    the call, and the exit status. *)
Definition invokeEntryPoint (E : Engine) (options : CommandLineOptions)
    (programFilename : string) (emscriptenInstance : option EmscriptenInstance)
    (function : ObjectPtr) : M Z :=
  let functionType := getFunctionType function in
  let invoke := fun invokeArgs : list Value =>
    functionResults ← invokeFunctionChecked E function invokeArgs;
    ret (mapExitStatus functionResults) in
  if Nat.eqb (length (params functionType)) 2 then
    let argStrings := [programFilename] in
    let argStrings := argStrings ++ args options in
    wavmAssert (bool_decide (is_Some emscriptenInstance));;
    match emscriptenInstance with
    | Some instance =>
        invokeArgs ← Emscripten_injectCommandArgs E instance argStrings;
        invoke invokeArgs
    | None => fatal NullDereference
    end
  else if Nat.ltb 0 (length (params functionType)) then
    output ["WebAssembly function requires "; PRIu64;
            " argument(s), but only 0 or 2 can be passed!";
            pretty (length (params functionType))];;
    ret EXIT_FAILURE
  else invoke [].

(** Lines 173-178 of [run]: the function export to call, or null. *)
Definition lookupEntryPoint (moduleInstance : ModuleInstance) : M (option ObjectPtr) :=
  exported ← getInstanceExport moduleInstance "main";
  match asFunctionNullable exported with
  | Some function => ret (Some function)
  | None =>
      exported ← getInstanceExport moduleInstance "_main";
      ret (asFunctionNullable exported)
  end.

(** Lines 172-208 of [run]: the lookup, and the call of what it found. *)
Definition callMain (E : Engine) (options : CommandLineOptions)
    (programFilename : string) (emscriptenInstance : option EmscriptenInstance)
    (moduleInstance : ModuleInstance) : M Z :=
  function ← lookupEntryPoint moduleInstance;
  match function with
  | None =>
      output ["Module does not export main function"];;
      ret EXIT_FAILURE
  | Some function =>
      invokeEntryPoint E options programFilename emscriptenInstance function
  end.

(** Lines 163-165 of [run]: the start function, if the module has one. *)
Definition callStartFunction (E : Engine) (moduleInstance : ModuleInstance) : M unit :=
  startFunction ← getStartFunction moduleInstance;
  match startFunction with
  | Some startFunction => _ ← invokeFunctionChecked E startFunction []; ret tt
  | None => ret tt
  end.

(** Lines 163-208 of [run]: what is done with the instance of the module. *)
Definition runInstance (E : Engine) (options : CommandLineOptions)
    (programFilename : string) (emscriptenInstance : option EmscriptenInstance)
    (irModule : IRModule) (moduleInstance : ModuleInstance) : M Z :=
  callStartFunction E moduleInstance;;
  Emscripten_initializeGlobals E irModule moduleInstance;;
  callMain E options programFilename emscriptenInstance moduleInstance.

(** What line 152 prints for one missing import. *)
Definition missingImportLine (E : Engine) (missingImport : Import) : M unit :=
  output ["Missing import: module=" +:+ String (Ascii.ascii_of_nat 34) "%s"
            +:+ String (Ascii.ascii_of_nat 34) " export="
            +:+ String (Ascii.ascii_of_nat 34) "%s"
            +:+ String (Ascii.ascii_of_nat 34) " type="
            +:+ String (Ascii.ascii_of_nat 34) "%s"
            +:+ String (Ascii.ascii_of_nat 34) newline;
          importModuleName missingImport; importExportName missingImport;
          engine_asString E (importType missingImport)].

Fixpoint forEach {A : Type} (body : A -> M unit) (l : list A) : M unit :=
  match l with
  | [] => ret tt
  | a :: rest => body a;; forEach body rest
  end.

(** Lines 148-208 of [run]: linking, instantiation, and the rest. *)
Definition linkAndRun (E : Engine) (options : CommandLineOptions)
    (programFilename : string) (emscriptenInstance : option EmscriptenInstance)
    (rootResolver : RootResolver) (irModule : IRModule) (module : Module) : M Z :=
  linkResult ← linkModule irModule (resolve E rootResolver);
  if negb (success linkResult) then
    output ["Failed to link module:" +:+ newline];;
    forEach (missingImportLine E) (missingImports linkResult);;
    ret EXIT_FAILURE
  else
    moduleInstance ←
      instantiateModule E module (resolvedImports linkResult) programFilename;
    match moduleInstance with
    | None => ret EXIT_FAILURE
    | Some moduleInstance =>
        runInstance E options programFilename emscriptenInstance irModule
          moduleInstance
    end.

(** [run] (lines 124-209); the definitions above are its body from line 148
    on, cut where a stage of the pipeline begins.  A null [options.filename]
    would be handed to [loadFile]; [main] never passes one. *)
Definition run (E : Engine) (options : CommandLineOptions) : M Z :=
  match filename options with
  | None => fatal NullDereference
  | Some programFilename =>
      loaded ← loadModule E programFilename;
      match loaded with
      | None => ret EXIT_FAILURE
      | Some irModule =>
          module ← compileModule irModule;
          createCompartment;;
          createContext;;
          let rootResolver := {| moduleNameToInstanceMap := ∅ |} in
          emscriptenInstance ← Emscripten_instantiate E irModule;
          let rootResolver :=
            match emscriptenInstance with
            | Some instance =>
                set "asm2wasm" (asm2wasm instance) (set "env" (env instance) rootResolver)
            | None => rootResolver
            end in
          linkAndRun E options programFilename emscriptenInstance rootResolver
            irModule module
      end
  end.

(** [showHelp] (lines 211-214) *)
Definition showHelp : M unit :=
  output ["Usage: wavm-run [programfile] [--] [arguments]" +:+ newline
            +:+ "  -h|--help             Display this message" +:+ newline].

(** [!strcmp(arg, "--help") || !strcmp(arg, "-h")] *)
Definition isHelp (arg : string) : bool :=
  bool_decide (arg = "--help") || bool_decide (arg = "-h").

(** The loop of [main] (lines 219-228), from the token after the cursor: it
    ends in the help message, or with the options as they are when the loop
    is left. *)
Inductive Scan : Type :=
| ScanHelp
| ScanEnd (options : CommandLineOptions).

Fixpoint scan (filename : option string) (tokens : list string) : Scan :=
  match tokens with
  | [] => ScanEnd {| filename := filename; args := [] |}
  | arg :: rest =>
      if isHelp arg then ScanHelp
      else
        match filename with
        | None => scan (Some arg) rest
        | Some _ => ScanEnd {| filename := filename; args := arg :: rest |}
        end
  end.

(** [main] (lines 216-241).  [argv] is [argv[0]], which the loop steps over,
    and the tokens after it. *)
Definition main (E : Engine) (argv0 : string) (arguments : list string) : M Z :=
  match scan None arguments with
  | ScanHelp => showHelp;; ret EXIT_SUCCESS
  | ScanEnd options =>
      match filename options with
      | None => showHelp;; ret EXIT_FAILURE
      | Some _ => log SetUnhandledExceptionHandler;; run E options
      end
  end.

(** ** Vocabulary of the statements *)

(** The state once [objects] have been allocated. *)
Definition grown (st : RunState) (objects : list Object) : RunState :=
  {| compartment := compartment st ++ objects; trace := trace st |}.

Definition isOutput (e : Event) : Prop := exists text : string, e = Output text.

(** An import for which the registry holds a same-named export of a type
    that is not the expected one. *)
Definition mismatched (E : Engine) (resolver : RootResolver) (import : Import) : Prop :=
  exists (instance : ModuleInstance) (object : ObjectPtr),
    moduleNameToInstanceMap resolver !! importModuleName import = Some instance
    /\ exportMap instance !! importExportName import = Some object
    /\ engine_isA E (target object) (importType import) = false.

(** What the start-function stage leaves in the trace. *)
Definition startEvents (moduleInstance : ModuleInstance) : list Event :=
  GetStartFunction ::
  match startFunction moduleInstance with
  | Some function => [InvokeFunction function []]
  | None => []
  end.

(** Whether the start-function stage comes back: there is no start function,
    or its call returns. *)
Definition startReturns (E : Engine) (moduleInstance : ModuleInstance) (st : RunState)
  : Res unit :=
  match startFunction moduleInstance with
  | Some function =>
      Res_map (fun _ => tt) (execute E (after st (startEvents moduleInstance)) function [])
  | None => Ok tt
  end.

(** ** Sample worlds *)

(** A module with one function, [main : [] -> [i32]], and the engine of a
    host without the shim in which that function returns 7. *)
Definition sampleMainType : FunctionType := {| results := [i32]; params := [] |}.

Definition sampleModule : IRModule :=
  {| types := [sampleMainType]; imports := [];
     functionDefs :=
       [{| typeIndex := 0; nonParameterLocalTypes := [];
           code := [otherOperator 65; end_]; branchTables := [] |}];
     tableDefs := []; memoryDefs := []; globalDefs := [];
     exceptionTypeDefs := [];
     exports :=
       [{| exportedAs := "main"; exportKind := ExternKind.function;
           exportIndex := 0 |}];
     startFunctionIndex := None; names := emptyDisassemblyNames |}.

Definition sampleEngine : Engine :=
  {| engine_loadFile := fun _ => Some [];
     engine_parseModule := fun _ => inl sampleModule;
     engine_reportParseErrors := fun _ _ => EmptyString;
     engine_asString := fun _ => "type";
     engine_isA := fun object type => bool_decide (getObjectType object = type);
     engine_emscriptenInstantiate := fun st _ => (None, compartment st);
     engine_instantiateModule := fun st _ _ _ => (None, compartment st);
     engine_invokeFunction := fun _ _ _ => Some [{| valType := i32; untagged := 7%Z |}];
     engine_initializeGlobals := fun _ _ _ => true;
     engine_injectCommandArgs := fun _ _ argStrings =>
       ({| valType := i32; untagged := Z.of_nat (length argStrings) |},
        {| valType := i32; untagged := 1024%Z |}) |}.

(** Objects and instances to resolve against. *)
Definition sampleMemoryType : MemoryType :=
  {| memorySize := {| initial := 1; maximum := Some 16%N |} |}.

Definition sampleMemory : ObjectPtr :=
  {| address := 0; target := MemoryObject sampleMemoryType "memory" |}.

Definition sampleFunction (name : string) (arity : nat) : ObjectPtr :=
  {| address := 1;
     target := FunctionObject {| results := [i32]; params := replicate arity i32 |}
                 [otherOperator 65; end_] name |}.

Definition sampleEnv : ModuleInstance :=
  {| exportMap := {[ "memory" := sampleMemory ]}; startFunction := None |}.

Definition sampleShim : EmscriptenInstance :=
  {| env := sampleEnv; asm2wasm := sampleEnv |}.

Definition sampleResolver : RootResolver :=
  set "env" sampleEnv {| moduleNameToInstanceMap := ∅ |}.

Definition sampleInstance : ModuleInstance :=
  {| exportMap := {[ "main" := sampleFunction "main" 0;
                     "_main" := sampleFunction "_main" 2 ]};
     startFunction := None |}.

(** An instance whose "main" is a memory and whose "_main" is a function. *)
Definition sampleUnderscoreInstance : ModuleInstance :=
  {| exportMap := {[ "main" := sampleMemory;
                     "_main" := sampleFunction "_main" 2 ]};
     startFunction := None |}.

(** A module that imports [env.memory] as a global, while the sample [env]
    exports a memory under that name. *)
Definition mismatchedImport : Import :=
  {| importModuleName := "env"; importExportName := "memory";
     importType := GlobalExtern {| valueType := i32; isMutable := true |} |}.

Definition mismatchedModule : IRModule :=
  {| types := [sampleMainType]; imports := [mismatchedImport];
     functionDefs := functionDefs sampleModule;
     tableDefs := []; memoryDefs := []; globalDefs := [];
     exceptionTypeDefs := []; exports := exports sampleModule;
     startFunctionIndex := None; names := emptyDisassemblyNames |}.

(** ** Two statements of the spec the code does not meet, as they are stated *)

(** C3 as stated: the global initializers run only when the shim was
    instantiated. *)
Definition shimGated (events : list Event) : Prop :=
  In InitializeGlobals events -> In (EmscriptenInstantiate true) events.

(** C6 as stated: every token after the filename is passed on as a program
    argument, none being taken as an option. *)
Definition everyTokenPassedOn (file : string) (rest : list string) : Prop :=
  scan None (file :: rest) = ScanEnd {| filename := Some file; args := rest |}.

(** ** Vocabulary of the further statements *)

(** What [showHelp] prints (lines 212-213). *)
Definition usageText : string :=
  foldr String.append EmptyString
    ["Usage: wavm-run [programfile] [--] [arguments]" +:+ newline
       +:+ "  -h|--help             Display this message" +:+ newline].

(** Whether one of the first two tokens after [argv[0]] is a help flag. *)
Definition helpRequested (arguments : list string) : bool :=
  match arguments with
  | [] => false
  | first :: rest =>
      isHelp first
      || match rest with
         | [] => false
         | second :: _ => isHelp second
         end
  end.

(** The tokens a scan ended with: the filename, if it was set, and then the
    arguments. *)
Definition tokensOf (options : CommandLineOptions) : list string :=
  match filename options with
  | Some file => file :: args options
  | None => args options
  end.

(** The resolver [run] links with (lines 139-146): the two namespaces of the
    shim when it is there, nothing otherwise. *)
Definition rootResolverOf (emscriptenInstance : option EmscriptenInstance)
  : RootResolver :=
  match emscriptenInstance with
  | Some instance =>
      set "asm2wasm" (asm2wasm instance)
        (set "env" (env instance) {| moduleNameToInstanceMap := ∅ |})
  | None => {| moduleNameToInstanceMap := ∅ |}
  end.

(** The status is the one mapped from the results of an invocation, and that
    invocation is the last thing that happened. *)
Definition entryInvoked (E : Engine) (st' : RunState) (status : Z) : Prop :=
  exists (function : ObjectPtr) (invokeArgs functionResults : list Value),
    last (trace st') = Some (InvokeFunction function invokeArgs)
    /\ execute E st' function invokeArgs = Ok functionResults
    /\ status = mapExitStatus functionResults.



(** A host given by what it answers for the file, for the parse and for the
    shim; the rest is as in the sample engine. *)
Definition hostOf (file : option (list Byte.byte)) (parsed : IRModule + list string)
    (shim : option EmscriptenInstance) : Engine :=
  {| engine_loadFile := fun _ => file;
     engine_parseModule := fun _ => parsed;
     engine_reportParseErrors := fun name errors =>
       foldr (fun e rest => name +:+ ": " +:+ e +:+ newline +:+ rest) EmptyString errors;
     engine_asString := engine_asString sampleEngine;
     engine_isA := engine_isA sampleEngine;
     engine_emscriptenInstantiate := fun st _ => (shim, compartment st);
     engine_instantiateModule := engine_instantiateModule sampleEngine;
     engine_invokeFunction := engine_invokeFunction sampleEngine;
     engine_initializeGlobals := engine_initializeGlobals sampleEngine;
     engine_injectCommandArgs := engine_injectCommandArgs sampleEngine |}.

(** An instance whose "main" takes one parameter and whose "_main" takes
    none. *)
Definition sampleUnaryInstance : ModuleInstance :=
  {| exportMap := {[ "main" := sampleFunction "main" 1;
                     "_main" := sampleFunction "_main" 0 ]};
     startFunction := None |}.


(** A module with two imports that nothing provides. *)
Definition needyModule : IRModule :=
  {| types := [sampleMainType]; imports :=
       [{| importModuleName := "wasi"; importExportName := "clock";
           importType := FunctionExtern sampleMainType |};
        {| importModuleName := "wasi"; importExportName := "heap";
           importType := MemoryExtern sampleMemoryType |}];
     functionDefs := []; tableDefs := []; memoryDefs := []; globalDefs := [];
     exceptionTypeDefs := []; exports := []; startFunctionIndex := None;
     names := emptyDisassemblyNames |}.

(** * Properties *)

(** ** States and traces *)

Lemma after_nil (st : RunState) : after st [] = st.
Proof. destruct st as [c tr]. unfold after. simpl. by rewrite app_nil_r. Qed.

Lemma after_after (st : RunState) (l1 l2 : list Event) :
  after (after st l1) l2 = after st (l1 ++ l2).
Proof. unfold after. simpl. by rewrite app_assoc. Qed.

Lemma compartment_after (st : RunState) (l : list Event) :
  compartment (after st l) = compartment st.
Proof. reflexivity. Qed.

Lemma trace_after (st : RunState) (l : list Event) :
  trace (after st l) = trace st ++ l.
Proof. reflexivity. Qed.

Lemma bind_ok {A B : Type} (c : M A) (k : A -> M B) (st st' : RunState) (a : A) :
  c st = (Ok a, st') -> bind c k st = k a st'.
Proof. intros Hc. unfold bind. by rewrite Hc. Qed.

Lemma bind_fatal {A B : Type} (c : M A) (k : A -> M B) (st st' : RunState)
    (f : Fault) :
  c st = (Fatal f, st') -> bind c k st = (Fatal f, st').
Proof. intros Hc. unfold bind. by rewrite Hc. Qed.

Lemma log_eq (e : Event) (st : RunState) : log e st = (Ok tt, after st [e]).
Proof. reflexivity. Qed.

Lemma grown_after (st : RunState) (objects : list Object) (l : list Event) :
  grown (after st l) objects = after (grown st objects) l.
Proof. reflexivity. Qed.

(** ** The stub factory *)

Lemma stubCode_eq : stubCode = [unreachable; end_].
Proof. reflexivity. Qed.

(** What instantiating the module of a stub function allocates and
    exports. *)
Lemma instantiateFunctions_stub (exportName : string) (functionType : FunctionType)
    (base : nat) :
  instantiateFunctions (stubIRModule exportName functionType) base =
  Some ({| exportMap :=
             {[ "importStub" :=
                  {| address := base + 0;
                     target := FunctionObject functionType [unreachable; end_]
                                 ("importStub: " +:+ exportName) |} ]};
           startFunction := None |},
        [FunctionObject functionType [unreachable; end_]
           ("importStub: " +:+ exportName)]).
Proof. reflexivity. Qed.

Lemma getStubObject_function (E : Engine) (exportName : string)
    (functionType : FunctionType) (st : RunState) :
  getStubObject E exportName (FunctionExtern functionType) st =
  (Ok (Some {| address := length (compartment st);
               target := FunctionObject functionType [unreachable; end_]
                           ("importStub: " +:+ exportName) |}),
   after
     (grown st [FunctionObject functionType [unreachable; end_]
                  ("importStub: " +:+ exportName)])
     [CompileModule; InstantiateModule "importStub";
      GetInstanceExport "importStub"]).
Proof.
  unfold getStubObject, bind, compileModule, instantiateModule, bind, log, ret.
  cbn [ir compartment after trace].
  rewrite instantiateFunctions_stub.
  unfold getInstanceExport, bind, log, ret. cbn [exportMap].
  rewrite lookup_singleton_eq, Nat.add_0_r.
  unfold after, grown. cbn. by rewrite <- !app_assoc.
Qed.

(** C2.  The module built for a function import holds one function, whose
    body is [unreachable] followed by [end] and whose type is the requested
    signature, exported as "importStub" and labelled "importStub: " followed
    by the export name; [getStubObject] compiles and instantiates it and
    returns the exported function, a newly allocated object of exactly that
    signature; and invoking what it returns traps, whatever the arguments and
    whatever the state of the run. *)
Theorem getStubObject_function_traps (E : Engine) (exportName : string)
    (functionType : FunctionType) (st : RunState) :
  let built := stubIRModule exportName functionType in
  let stub :=
    {| address := length (compartment st);
       target := FunctionObject functionType [unreachable; end_]
                   ("importStub: " +:+ exportName) |} in
  (types built = [functionType]
   /\ functionDefs built =
        [{| typeIndex := 0; nonParameterLocalTypes := [];
            code := [unreachable; end_]; branchTables := [] |}]
   /\ exports built =
        [{| exportedAs := "importStub"; exportKind := ExternKind.function;
            exportIndex := 0 |}]
   /\ functionNames (names built) =
        [{| functionName := "importStub: " +:+ exportName; localNames := [];
            labelNames := [] |}]
   /\ functionsOnly built = true)
  /\ getStubObject E exportName (FunctionExtern functionType) st =
       (Ok (Some stub),
        after (grown st [target stub])
          [CompileModule; InstantiateModule "importStub";
           GetInstanceExport "importStub"])
  /\ getFunctionType stub = functionType
  /\ forall (arguments : list Value) (st' : RunState),
       invokeFunctionChecked E stub arguments st' =
       (Fatal RuntimeTrap, after st' [InvokeFunction stub arguments]).
Proof.
  intros built stub. split; [| split; [| split]].
  - repeat split.
  - apply getStubObject_function.
  - reflexivity.
  - intros arguments st'. reflexivity.
Qed.

(** C9.  For a global import, [getStubObject] allocates one new object, a
    global whose type (value type and mutability) is the requested one and
    whose initial value has the global's value type and the all-zero
    payload. *)
Theorem getStubObject_global (E : Engine) (exportName : string)
    (globalType : GlobalType) (st : RunState) :
  let stub :=
    {| address := length (compartment st);
       target := GlobalObject globalType
                   {| valType := valueType globalType;
                      untagged := UntaggedValue_default |} |} in
  getStubObject E exportName (GlobalExtern globalType) st =
    (Ok (Some stub), grown st [target stub])
  /\ getObjectType (target stub) = GlobalExtern globalType
  /\ UntaggedValue_default = 0%Z
  /\ untagged_i32 UntaggedValue_default = 0%Z.
Proof.
  intros stub. repeat split.
Qed.

(** The stub of a type of one of the five kinds: a new object, of exactly
    that type. *)
Lemma getStubObject_closed (E : Engine) (exportName : string) (type : ExternType)
    (st : RunState) :
  closedKind (kind type) = true ->
  exists object : Object,
    getObjectType object = type
    /\ exists events : list Event,
         getStubObject E exportName type st =
         (Ok (Some {| address := length (compartment st); target := object |}),
          after (grown st [object]) events).
Proof.
  intros Hclosed. destruct type as [ft | tt | mt | gt | et | raw]; try discriminate.
  - eexists. split; [| eexists; apply getStubObject_function]. reflexivity.
  - eexists. split; [| exists []; rewrite after_nil; reflexivity]. reflexivity.
  - eexists. split; [| exists []; rewrite after_nil; reflexivity]. reflexivity.
  - eexists. split; [| exists []; rewrite after_nil; reflexivity]. reflexivity.
  - eexists. split; [| exists []; rewrite after_nil; reflexivity]. reflexivity.
Qed.

(** C8.  A type whose kind is none of the five takes [getStubObject] to its
    default branch: the process ends there with the internal invariant fault,
    nothing is allocated or returned, and whatever was to follow the call is
    not run; [resolve] ends the same way when it has to stub such a type.
    For a type of one of the five kinds the call returns an object, so the
    default branch is not reached. *)
Theorem getStubObject_default_branch (E : Engine) (exportName : string)
    (type : ExternType) (st : RunState) :
  (closedKind (kind type) = false ->
     getStubObject E exportName type st = (Fatal InternalInvariantFault, st)
     /\ (forall (A : Type) (k : option ObjectPtr -> M A),
           bind (getStubObject E exportName type) k st =
           (Fatal InternalInvariantFault, st))
     /\ (forall (resolver : RootResolver) (moduleName : string),
           moduleNameToInstanceMap resolver !! moduleName = None ->
           resolve E resolver moduleName exportName type st =
           (Fatal InternalInvariantFault, st)))
  /\ (closedKind (kind type) = true ->
        exists (stub : ObjectPtr) (st' : RunState),
          getStubObject E exportName type st = (Ok (Some stub), st')).
Proof.
  split.
  - intros Hother. destruct type; try discriminate.
    split; [reflexivity |]. split.
    + intros A k. reflexivity.
    + intros resolver moduleName Hnone. unfold resolve, bind. rewrite Hnone.
      reflexivity.
  - intros Hclosed.
    destruct (getStubObject_closed E exportName type st Hclosed)
      as (object & _ & events & Heq).
    eauto.
Qed.

(** ** Import resolution *)

Lemma resolve_bound (E : Engine) (resolver : RootResolver)
    (moduleName exportName : string) (type : ExternType) (st : RunState)
    (instance : ModuleInstance) (object : ObjectPtr) :
  moduleNameToInstanceMap resolver !! moduleName = Some instance ->
  exportMap instance !! exportName = Some object ->
  engine_isA E (target object) type = true ->
  resolve E resolver moduleName exportName type st =
  (Ok (true, Some object), after st [GetInstanceExport exportName]).
Proof.
  intros Hmodule Hexport HisA.
  unfold resolve, bind. rewrite Hmodule.
  unfold getInstanceExport, bind, log, ret. rewrite Hexport, HisA. reflexivity.
Qed.

Lemma resolve_mismatch (E : Engine) (resolver : RootResolver)
    (moduleName exportName : string) (type : ExternType) (st : RunState)
    (instance : ModuleInstance) (object : ObjectPtr) :
  moduleNameToInstanceMap resolver !! moduleName = Some instance ->
  exportMap instance !! exportName = Some object ->
  engine_isA E (target object) type = false ->
  exists text : string,
    resolve E resolver moduleName exportName type st =
    (Ok (false, Some object),
     after st [GetInstanceExport exportName; Output text]).
Proof.
  intros Hmodule Hexport HisA.
  unfold resolve, bind. rewrite Hmodule.
  unfold getInstanceExport, bind, log, ret. rewrite Hexport, HisA.
  eexists. unfold output, bind, log, ret. rewrite after_after. reflexivity.
Qed.

Lemma resolve_stub (E : Engine) (resolver : RootResolver)
    (moduleName exportName : string) (type : ExternType) (st : RunState) :
  moduleNameToInstanceMap resolver !! moduleName = None
  \/ (exists instance : ModuleInstance,
        moduleNameToInstanceMap resolver !! moduleName = Some instance
        /\ exportMap instance !! exportName = None) ->
  closedKind (kind type) = true ->
  exists (object : Object) (events : list Event),
    getObjectType object = type
    /\ resolve E resolver moduleName exportName type st =
       (Ok (true, Some {| address := length (compartment st); target := object |}),
        after (grown st [object]) events).
Proof.
  intros Habsent Hclosed. unfold resolve, bind.
  destruct Habsent as [Hmodule | (instance & Hmodule & Hexport)]; rewrite Hmodule.
  - destruct (getStubObject_closed E exportName type st Hclosed)
      as (object & Htype & events & Heq).
    exists object, events. split; [exact Htype |].
    unfold ret. rewrite Heq. reflexivity.
  - unfold getInstanceExport, bind, log, ret. rewrite Hexport.
    destruct (getStubObject_closed E exportName type
                (after st [GetInstanceExport exportName]) Hclosed)
      as (object & Htype & events & Heq).
    exists object, (GetInstanceExport exportName :: events).
    split; [exact Htype |]. rewrite Heq.
    rewrite grown_after, after_after. reflexivity.
Qed.

(** Linking reports every mismatched import as missing. *)
Lemma linkImports_mismatched (E : Engine) (resolver : RootResolver) (import : Import)
    (declared : list Import) :
  mismatched E resolver import ->
  In import declared ->
  forall (st st1 : RunState) (linked : list (option ObjectPtr) * list Import),
    linkImports (resolve E resolver) declared st = (Ok linked, st1) ->
    In import linked.2.
Proof.
  intros (instance & object & Hmodule & Hexport & HisA).
  induction declared as [| first rest IH]; intros Hin st st1 linked Hlink.
  - destruct Hin.
  - simpl in Hlink. unfold bind in Hlink.
    destruct (resolve E resolver (importModuleName first) (importExportName first)
                (importType first) st) as [[resolved | f] st'] eqn:Hresolve;
      [| discriminate].
    destruct (linkImports (resolve E resolver) rest st') as [[linked' | f] st'']
      eqn:Hrest; [| discriminate].
    unfold ret in Hlink. injection Hlink as Hlinked _. subst linked.
    destruct Hin as [-> | Hin].
    + destruct (resolve_mismatch E resolver _ _ _ st instance object
                  Hmodule Hexport HisA) as (text & Heq).
      rewrite Heq in Hresolve. injection Hresolve as <- _. simpl. by left.
    + specialize (IH Hin st' st'' linked' Hrest).
      destruct resolved.1; simpl; [exact IH | by right].
Qed.

Lemma output_eq (pieces : list string) (st : RunState) :
  exists text : string, output pieces st = (Ok tt, after st [Output text]).
Proof. eexists. reflexivity. Qed.

Lemma missingImportLine_eq (E : Engine) (import : Import) (st : RunState) :
  exists text : string,
    missingImportLine E import st = (Ok tt, after st [Output text]).
Proof. apply output_eq. Qed.

Lemma forEach_missingImportLine (E : Engine) (missing : list Import) (st : RunState) :
  exists outs : list Event,
    Forall isOutput outs
    /\ forEach (missingImportLine E) missing st = (Ok tt, after st outs).
Proof.
  revert st. induction missing as [| import rest IH]; intros st.
  - exists []. split; [constructor |]. simpl. unfold ret. by rewrite after_nil.
  - cbn [forEach]. unfold bind.
    destruct (missingImportLine_eq E import st) as (text & ->).
    destruct (IH (after st [Output text])) as (outs & Houts & ->).
    exists (Output text :: outs). split.
    + constructor; [by eexists | exact Houts].
    + rewrite after_after. reflexivity.
Qed.

(** A failed link ends the run with the failure status, and after the link
    the run does nothing but print. *)
Lemma linkAndRun_failure (E : Engine) (options : CommandLineOptions)
    (programFilename : string) (emscriptenInstance : option EmscriptenInstance)
    (rootResolver : RootResolver) (irModule : IRModule) (module : Module)
    (st st1 : RunState) (linkResult : LinkResult) :
  linkModule irModule (resolve E rootResolver) st = (Ok linkResult, st1) ->
  success linkResult = false ->
  exists outs : list Event,
    Forall isOutput outs
    /\ linkAndRun E options programFilename emscriptenInstance rootResolver
         irModule module st = (Ok EXIT_FAILURE, after st1 outs).
Proof.
  intros Hlink Hfail. unfold linkAndRun.
  rewrite (bind_ok _ _ _ _ _ Hlink), Hfail. cbn [negb].
  destruct (output_eq ["Failed to link module:" +:+ newline] st1) as (text & Hout).
  rewrite (bind_ok _ _ _ _ _ Hout).
  destruct (forEach_missingImportLine E (missingImports linkResult)
              (after st1 [Output text])) as (outs & Houts & Hlines).
  rewrite (bind_ok _ _ _ _ _ Hlines).
  exists (Output text :: outs). split.
  - constructor; [by eexists | exact Houts].
  - unfold ret. rewrite after_after. reflexivity.
Qed.

Lemma linkModule_mismatched (E : Engine) (resolver : RootResolver) (import : Import)
    (irModule : IRModule) (st st1 : RunState) (linkResult : LinkResult) :
  mismatched E resolver import ->
  In import (imports irModule) ->
  linkModule irModule (resolve E resolver) st = (Ok linkResult, st1) ->
  In import (missingImports linkResult) /\ success linkResult = false.
Proof.
  intros Hmismatch Hin Hlink. unfold linkModule, bind in Hlink.
  destruct (linkImports (resolve E resolver) (imports irModule) st)
    as [[linked | f] st'] eqn:Himports; [| discriminate].
  unfold ret in Hlink. injection Hlink as <- _. cbn [missingImports success].
  pose proof (linkImports_mismatched E resolver import (imports irModule)
                Hmismatch Hin st st' linked Himports) as Hmissing.
  split; [exact Hmissing |].
  destruct linked.2; [destruct Hmissing | reflexivity].
Qed.

(** C1.  [resolve], for an import (moduleName, exportName, type):
    - when the registry maps moduleName to an instance that exports
      exportName as an object for which [isA] holds at the type, it returns
      true and that very object, and allocates nothing;
    - when moduleName is not registered, or its instance has no export
      exportName, it returns true and a stub: an object allocated by this
      call (its address is the next free one of the compartment) whose type
      is exactly the expected one (for a type of one of the five kinds);
    - when the export exists and [isA] fails, it returns false, allocates
      nothing, and any module declaring this import fails to link: the
      import is among the missing ones, the run ends with the failure status
      and does nothing after the link but print (or the process has ended
      during the link). *)
Theorem resolve_trichotomy (E : Engine) (resolver : RootResolver)
    (moduleName exportName : string) (type : ExternType) (st : RunState) :
  (forall (instance : ModuleInstance) (object : ObjectPtr),
     moduleNameToInstanceMap resolver !! moduleName = Some instance ->
     exportMap instance !! exportName = Some object ->
     engine_isA E (target object) type = true ->
     resolve E resolver moduleName exportName type st =
     (Ok (true, Some object), after st [GetInstanceExport exportName]))
  /\ (moduleNameToInstanceMap resolver !! moduleName = None
      \/ (exists instance : ModuleInstance,
            moduleNameToInstanceMap resolver !! moduleName = Some instance
            /\ exportMap instance !! exportName = None) ->
      closedKind (kind type) = true ->
      exists (object : Object) (events : list Event),
        getObjectType object = type
        /\ resolve E resolver moduleName exportName type st =
           (Ok (true, Some {| address := length (compartment st);
                              target := object |}),
            after (grown st [object]) events))
  /\ (forall (instance : ModuleInstance) (object : ObjectPtr),
        moduleNameToInstanceMap resolver !! moduleName = Some instance ->
        exportMap instance !! exportName = Some object ->
        engine_isA E (target object) type = false ->
        (exists text : string,
           resolve E resolver moduleName exportName type st =
           (Ok (false, Some object),
            after st [GetInstanceExport exportName; Output text]))
        /\ forall (options : CommandLineOptions) (programFilename : string)
             (emscriptenInstance : option EmscriptenInstance)
             (irModule : IRModule) (module : Module) (st0 : RunState),
             In {| importModuleName := moduleName;
                   importExportName := exportName;
                   importType := type |} (imports irModule) ->
             match linkModule irModule (resolve E resolver) st0 with
             | (Fatal f, st1) =>
                 linkAndRun E options programFilename emscriptenInstance
                   resolver irModule module st0 = (Fatal f, st1)
             | (Ok linkResult, st1) =>
                 success linkResult = false
                 /\ In {| importModuleName := moduleName;
                          importExportName := exportName;
                          importType := type |} (missingImports linkResult)
                 /\ exists outs : list Event,
                      Forall isOutput outs
                      /\ linkAndRun E options programFilename emscriptenInstance
                           resolver irModule module st0 =
                         (Ok EXIT_FAILURE, after st1 outs)
             end).
Proof.
  split; [| split].
  - intros instance object. apply resolve_bound.
  - apply resolve_stub.
  - intros instance object Hmodule Hexport HisA. split.
    + by apply (resolve_mismatch E resolver _ _ _ st instance object).
    + intros options programFilename emscriptenInstance irModule module st0 Hin.
      destruct (linkModule irModule (resolve E resolver) st0)
        as [[linkResult | f] st1] eqn:Hlink.
      * assert (Hmismatch : mismatched E resolver
                  {| importModuleName := moduleName;
                     importExportName := exportName; importType := type |})
          by (exists instance, object; auto).
        destruct (linkModule_mismatched E resolver _ irModule st0 st1 linkResult
                    Hmismatch Hin Hlink) as [Hmissing Hfail].
        split; [exact Hfail |]. split; [exact Hmissing |].
        by apply (linkAndRun_failure E options programFilename emscriptenInstance
                    resolver irModule module st0 st1 linkResult).
      * unfold linkAndRun. by apply bind_fatal.
Qed.

(** ** The entry point *)

Lemma invokeFunctionChecked_eq (E : Engine) (function : ObjectPtr)
    (arguments : list Value) (st : RunState) :
  invokeFunctionChecked E function arguments st =
  (execute E (after st [InvokeFunction function arguments]) function arguments,
   after st [InvokeFunction function arguments]).
Proof. reflexivity. Qed.

(** The call and the exit status, once the arguments are there. *)
Lemma invoke_and_map (E : Engine) (function : ObjectPtr) (invokeArgs : list Value)
    (st : RunState) :
  bind (invokeFunctionChecked E function invokeArgs)
    (fun functionResults => ret (mapExitStatus functionResults)) st =
  (Res_map mapExitStatus
     (execute E (after st [InvokeFunction function invokeArgs]) function invokeArgs),
   after st [InvokeFunction function invokeArgs]).
Proof.
  unfold bind. rewrite invokeFunctionChecked_eq.
  by destruct (execute E _ function invokeArgs).
Qed.

Lemma invokeEntryPoint_arity0 (E : Engine) (options : CommandLineOptions)
    (programFilename : string) (emscriptenInstance : option EmscriptenInstance)
    (function : ObjectPtr) (st : RunState) :
  length (params (getFunctionType function)) = 0 ->
  invokeEntryPoint E options programFilename emscriptenInstance function st =
  (Res_map mapExitStatus (execute E (after st [InvokeFunction function []]) function []),
   after st [InvokeFunction function []]).
Proof.
  intros Harity. unfold invokeEntryPoint. rewrite Harity. cbn [Nat.eqb Nat.ltb Nat.leb].
  apply invoke_and_map.
Qed.

Lemma Emscripten_injectCommandArgs_eq (E : Engine) (instance : EmscriptenInstance)
    (argStrings : list string) (st : RunState) :
  let injected :=
    engine_injectCommandArgs E (after st [InjectCommandArgs argStrings]) instance
      argStrings in
  Emscripten_injectCommandArgs E instance argStrings st =
  (Ok [injected.1; injected.2], after st [InjectCommandArgs argStrings]).
Proof.
  intros injected. unfold Emscripten_injectCommandArgs, bind. rewrite log_eq.
  fold injected. by destruct injected.
Qed.

Lemma invokeEntryPoint_arity2 (E : Engine) (options : CommandLineOptions)
    (programFilename : string) (instance : EmscriptenInstance)
    (function : ObjectPtr) (st : RunState) :
  length (params (getFunctionType function)) = 2 ->
  let argStrings := programFilename :: args options in
  let injected :=
    engine_injectCommandArgs E (after st [InjectCommandArgs argStrings]) instance
      argStrings in
  let invokeArgs := [injected.1; injected.2] in
  let st' := after st [InjectCommandArgs argStrings; InvokeFunction function invokeArgs] in
  invokeEntryPoint E options programFilename (Some instance) function st =
  (Res_map mapExitStatus (execute E st' function invokeArgs), st').
Proof.
  intros Harity argStrings injected invokeArgs st'.
  unfold invokeEntryPoint. rewrite Harity. cbn [Nat.eqb].
  unfold wavmAssert. rewrite bool_decide_eq_true_2 by eauto.
  rewrite (bind_ok (ret tt) _ st st tt) by reflexivity.
  rewrite (bind_ok _ _ _ _ _ (Emscripten_injectCommandArgs_eq E instance argStrings st)).
  rewrite invoke_and_map, after_after. reflexivity.
Qed.

Lemma invokeEntryPoint_arity2_no_shim (E : Engine) (options : CommandLineOptions)
    (programFilename : string) (function : ObjectPtr) (st : RunState) :
  length (params (getFunctionType function)) = 2 ->
  invokeEntryPoint E options programFilename None function st =
  (Fatal PreconditionViolation, st).
Proof.
  intros Harity. unfold invokeEntryPoint. rewrite Harity. reflexivity.
Qed.

Lemma invokeEntryPoint_unsupported (E : Engine) (options : CommandLineOptions)
    (programFilename : string) (emscriptenInstance : option EmscriptenInstance)
    (function : ObjectPtr) (st : RunState) :
  length (params (getFunctionType function)) <> 0 ->
  length (params (getFunctionType function)) <> 2 ->
  exists text : string,
    invokeEntryPoint E options programFilename emscriptenInstance function st =
    (Ok EXIT_FAILURE, after st [Output text]).
Proof.
  intros Hnot0 Hnot2. unfold invokeEntryPoint.
  destruct (Nat.eqb_spec (length (params (getFunctionType function))) 2) as [|_];
    [contradiction |].
  destruct (Nat.ltb_spec 0 (length (params (getFunctionType function)))) as [_ | Hle];
    [| lia].
  eexists. reflexivity.
Qed.

(** C4.  The entry point is called by the number of its parameters:
    - none: it is invoked with no arguments, and nothing is marshalled (the
      invoke is the only call made);
    - two, with the shim there: the filename followed by the program
      arguments goes to [injectCommandArgs], and the entry point is invoked
      with the two values that come back;
    - two, without the shim: the assertion fails and the process ends with a
      precondition violation, before anything is marshalled or invoked;
    - any other number: a diagnostic is printed and the run ends with the
      failure status; nothing is invoked. *)
Theorem entry_point_arity_dispatch (E : Engine) (options : CommandLineOptions)
    (programFilename : string) (emscriptenInstance : option EmscriptenInstance)
    (function : ObjectPtr) (st : RunState) :
  let arity := length (params (getFunctionType function)) in
  (arity = 0 ->
     invokeEntryPoint E options programFilename emscriptenInstance function st =
     (Res_map mapExitStatus
        (execute E (after st [InvokeFunction function []]) function []),
      after st [InvokeFunction function []]))
  /\ (arity = 2 ->
      forall instance : EmscriptenInstance,
        emscriptenInstance = Some instance ->
        let argStrings := programFilename :: args options in
        let injected :=
          engine_injectCommandArgs E (after st [InjectCommandArgs argStrings])
            instance argStrings in
        let invokeArgs := [injected.1; injected.2] in
        let st' :=
          after st [InjectCommandArgs argStrings;
                    InvokeFunction function invokeArgs] in
        invokeEntryPoint E options programFilename emscriptenInstance function st =
        (Res_map mapExitStatus (execute E st' function invokeArgs), st'))
  /\ (arity = 2 ->
      emscriptenInstance = None ->
      invokeEntryPoint E options programFilename emscriptenInstance function st =
      (Fatal PreconditionViolation, st))
  /\ (arity <> 0 ->
      arity <> 2 ->
      exists text : string,
        invokeEntryPoint E options programFilename emscriptenInstance function st =
        (Ok EXIT_FAILURE, after st [Output text])).
Proof.
  intros arity. repeat split.
  - apply invokeEntryPoint_arity0.
  - intros Harity instance ->. by apply invokeEntryPoint_arity2.
  - intros Harity ->. by apply invokeEntryPoint_arity2_no_shim.
  - apply invokeEntryPoint_unsupported.
Qed.

(** Every way [invokeEntryPoint] can end with a status. *)
Lemma invokeEntryPoint_status (E : Engine) (options : CommandLineOptions)
    (programFilename : string) (emscriptenInstance : option EmscriptenInstance)
    (function : ObjectPtr) (st st' : RunState) (status : Z) :
  invokeEntryPoint E options programFilename emscriptenInstance function st =
    (Ok status, st') ->
  (exists (invokeArgs functionResults : list Value),
     last (trace st') = Some (InvokeFunction function invokeArgs)
     /\ execute E st' function invokeArgs = Ok functionResults
     /\ status = mapExitStatus functionResults)
  \/ (length (params (getFunctionType function)) <> 0
      /\ length (params (getFunctionType function)) <> 2
      /\ status = EXIT_FAILURE
      /\ exists text : string, st' = after st [Output text]).
Proof.
  intros Hrun.
  destruct (decide (length (params (getFunctionType function)) = 0)) as [H0 | H0].
  - rewrite invokeEntryPoint_arity0 in Hrun by exact H0.
    injection Hrun as Hres <-. left. exists [].
    destruct (execute E _ function []) as [functionResults |] eqn:Hexec;
      [| discriminate].
    exists functionResults. injection Hres as <-.
    split; [by rewrite trace_after, last_snoc |]. by split.
  - destruct (decide (length (params (getFunctionType function)) = 2)) as [H2 | H2].
    + destruct emscriptenInstance as [instance |].
      * rewrite invokeEntryPoint_arity2 in Hrun by exact H2.
        injection Hrun as Hres <-. left. eexists.
        destruct (execute E _ function _) as [functionResults |] eqn:Hexec;
          [| discriminate].
        exists functionResults. injection Hres as <-.
        split; [| by split].
        rewrite trace_after.
        change [InjectCommandArgs (programFilename :: args options);
                InvokeFunction function ?a]
          with ([InjectCommandArgs (programFilename :: args options)]
                  ++ [InvokeFunction function a]).
        by rewrite app_assoc, last_snoc.
      * rewrite invokeEntryPoint_arity2_no_shim in Hrun by exact H2. discriminate.
    + right.
      destruct (invokeEntryPoint_unsupported E options programFilename
                  emscriptenInstance function st H0 H2) as (text & Heq).
      rewrite Heq in Hrun. injection Hrun as <- <-. eauto.
Qed.

(** C5.  The exit status for the results of the call: one result of type
    [i32] gives its [i32] value; no result, several results, or one result
    of another type give [EXIT_SUCCESS].  And whenever the entry point was
    invoked and returned, the status [run] returns is the one so mapped from
    the results of that call. *)
Theorem exit_status_mapping :
  (forall result : Value,
     valType result = i32 ->
     mapExitStatus [result] = untagged_i32 (untagged result))
  /\ mapExitStatus [] = EXIT_SUCCESS
  /\ (forall (first second : Value) (others : list Value),
        mapExitStatus (first :: second :: others) = EXIT_SUCCESS)
  /\ (forall result : Value,
        valType result <> i32 -> mapExitStatus [result] = EXIT_SUCCESS)
  /\ (forall (E : Engine) (options : CommandLineOptions) (programFilename : string)
        (emscriptenInstance : option EmscriptenInstance) (function : ObjectPtr)
        (st st' : RunState) (status : Z),
        invokeEntryPoint E options programFilename emscriptenInstance function st =
          (Ok status, st') ->
        length (params (getFunctionType function)) = 0
        \/ length (params (getFunctionType function)) = 2 ->
        exists (invokeArgs functionResults : list Value),
          last (trace st') = Some (InvokeFunction function invokeArgs)
          /\ execute E st' function invokeArgs = Ok functionResults
          /\ status = mapExitStatus functionResults).
Proof.
  split; [| split; [| split; [| split]]].
  - intros result Htype. unfold mapExitStatus.
    by rewrite bool_decide_eq_true_2.
  - reflexivity.
  - reflexivity.
  - intros result Htype. unfold mapExitStatus.
    by rewrite bool_decide_eq_false_2.
  - intros E options programFilename emscriptenInstance function st st' status
      Hrun Harity.
    destruct (invokeEntryPoint_status E options programFilename emscriptenInstance
                function st st' status Hrun) as [Hcalled | (H0 & H2 & _)].
    + exact Hcalled.
    + destruct Harity; contradiction.
Qed.

Lemma getInstanceExport_eq (moduleInstance : ModuleInstance) (name : string)
    (st : RunState) :
  getInstanceExport moduleInstance name st =
  (Ok (exportMap moduleInstance !! name), after st [GetInstanceExport name]).
Proof. reflexivity. Qed.

Lemma lookupEntryPoint_main (moduleInstance : ModuleInstance) (function : ObjectPtr)
    (st : RunState) :
  asFunctionNullable (exportMap moduleInstance !! "main") = Some function ->
  lookupEntryPoint moduleInstance st =
  (Ok (Some function), after st [GetInstanceExport "main"]).
Proof.
  intros Hmain. unfold lookupEntryPoint.
  rewrite (bind_ok _ _ _ _ _ (getInstanceExport_eq moduleInstance "main" st)).
  by rewrite Hmain.
Qed.

Lemma lookupEntryPoint__main (moduleInstance : ModuleInstance) (st : RunState) :
  asFunctionNullable (exportMap moduleInstance !! "main") = None ->
  lookupEntryPoint moduleInstance st =
  (Ok (asFunctionNullable (exportMap moduleInstance !! "_main")),
   after st [GetInstanceExport "main"; GetInstanceExport "_main"]).
Proof.
  intros Hmain. unfold lookupEntryPoint.
  rewrite (bind_ok _ _ _ _ _ (getInstanceExport_eq moduleInstance "main" st)).
  rewrite Hmain.
  rewrite (bind_ok _ _ _ _ _ (getInstanceExport_eq moduleInstance "_main" _)).
  unfold ret. by rewrite after_after.
Qed.

Lemma callMain_main (E : Engine) (options : CommandLineOptions)
    (programFilename : string) (emscriptenInstance : option EmscriptenInstance)
    (moduleInstance : ModuleInstance) (function : ObjectPtr) (st : RunState) :
  asFunctionNullable (exportMap moduleInstance !! "main") = Some function ->
  callMain E options programFilename emscriptenInstance moduleInstance st =
  invokeEntryPoint E options programFilename emscriptenInstance function
    (after st [GetInstanceExport "main"]).
Proof.
  intros Hmain. unfold callMain.
  by rewrite (bind_ok _ _ _ _ _ (lookupEntryPoint_main moduleInstance function st Hmain)).
Qed.

Lemma callMain__main (E : Engine) (options : CommandLineOptions)
    (programFilename : string) (emscriptenInstance : option EmscriptenInstance)
    (moduleInstance : ModuleInstance) (function : ObjectPtr) (st : RunState) :
  asFunctionNullable (exportMap moduleInstance !! "main") = None ->
  asFunctionNullable (exportMap moduleInstance !! "_main") = Some function ->
  callMain E options programFilename emscriptenInstance moduleInstance st =
  invokeEntryPoint E options programFilename emscriptenInstance function
    (after st [GetInstanceExport "main"; GetInstanceExport "_main"]).
Proof.
  intros Hmain Hunderscore. unfold callMain.
  rewrite (bind_ok _ _ _ _ _ (lookupEntryPoint__main moduleInstance st Hmain)).
  by rewrite Hunderscore.
Qed.

Lemma callMain_no_entry_point (E : Engine) (options : CommandLineOptions)
    (programFilename : string) (emscriptenInstance : option EmscriptenInstance)
    (moduleInstance : ModuleInstance) (st : RunState) :
  asFunctionNullable (exportMap moduleInstance !! "main") = None ->
  asFunctionNullable (exportMap moduleInstance !! "_main") = None ->
  callMain E options programFilename emscriptenInstance moduleInstance st =
  (Ok EXIT_FAILURE,
   after st [GetInstanceExport "main"; GetInstanceExport "_main";
             Output "Module does not export main function"]).
Proof.
  intros Hmain Hunderscore. unfold callMain.
  rewrite (bind_ok _ _ _ _ _ (lookupEntryPoint__main moduleInstance st Hmain)).
  rewrite Hunderscore.
  unfold bind, output, ret. rewrite log_eq, after_after. reflexivity.
Qed.

(** [invokeEntryPoint] adds to the trace and leaves the compartment as it
    is. *)
Lemma invokeEntryPoint_events (E : Engine) (options : CommandLineOptions)
    (programFilename : string) (emscriptenInstance : option EmscriptenInstance)
    (function : ObjectPtr) (st : RunState) :
  exists (result : Res Z) (events : list Event),
    invokeEntryPoint E options programFilename emscriptenInstance function st =
    (result, after st events).
Proof.
  destruct (decide (length (params (getFunctionType function)) = 0)) as [H0 | H0].
  - rewrite invokeEntryPoint_arity0 by exact H0. eauto.
  - destruct (decide (length (params (getFunctionType function)) = 2)) as [H2 | H2].
    + destruct emscriptenInstance as [instance |].
      * rewrite invokeEntryPoint_arity2 by exact H2. eauto.
      * rewrite invokeEntryPoint_arity2_no_shim by exact H2.
        exists (Fatal PreconditionViolation), []. by rewrite after_nil.
    + destruct (invokeEntryPoint_unsupported E options programFilename
                  emscriptenInstance function st H0 H2) as (text & ->). eauto.
Qed.

(** C7.  The entry point is looked up as "main" first: a function exported
    under that name is the one handed to the invocation, and "_main" is not
    even looked up, whether it is exported or not.  Only when "main" gives no
    function is "_main" looked up, and a function exported under it is then
    the one invoked.  When neither gives a function, the run ends with the
    failure status after printing "Module does not export main function",
    and nothing is invoked. *)
Theorem entry_point_lookup (E : Engine) (options : CommandLineOptions)
    (programFilename : string) (emscriptenInstance : option EmscriptenInstance)
    (moduleInstance : ModuleInstance) (st : RunState) :
  (forall function : ObjectPtr,
     asFunctionNullable (exportMap moduleInstance !! "main") = Some function ->
     lookupEntryPoint moduleInstance st =
       (Ok (Some function), after st [GetInstanceExport "main"])
     /\ callMain E options programFilename emscriptenInstance moduleInstance st =
        invokeEntryPoint E options programFilename emscriptenInstance function
          (after st [GetInstanceExport "main"]))
  /\ (asFunctionNullable (exportMap moduleInstance !! "main") = None ->
      forall function : ObjectPtr,
        asFunctionNullable (exportMap moduleInstance !! "_main") = Some function ->
        lookupEntryPoint moduleInstance st =
          (Ok (Some function),
           after st [GetInstanceExport "main"; GetInstanceExport "_main"])
        /\ callMain E options programFilename emscriptenInstance moduleInstance st =
           invokeEntryPoint E options programFilename emscriptenInstance function
             (after st [GetInstanceExport "main"; GetInstanceExport "_main"]))
  /\ (asFunctionNullable (exportMap moduleInstance !! "main") = None ->
      asFunctionNullable (exportMap moduleInstance !! "_main") = None ->
      callMain E options programFilename emscriptenInstance moduleInstance st =
      (Ok EXIT_FAILURE,
       after st [GetInstanceExport "main"; GetInstanceExport "_main";
                 Output "Module does not export main function"])).
Proof.
  split; [| split].
  - intros function Hmain. split.
    + by apply lookupEntryPoint_main.
    + by apply callMain_main.
  - intros Hmain function Hunderscore. split.
    + rewrite <- Hunderscore. by apply lookupEntryPoint__main.
    + by apply callMain__main.
  - apply callMain_no_entry_point.
Qed.

(** ** The order of the stages *)

Lemma callStartFunction_eq (E : Engine) (moduleInstance : ModuleInstance)
    (st : RunState) :
  callStartFunction E moduleInstance st =
  (startReturns E moduleInstance st, after st (startEvents moduleInstance)).
Proof.
  unfold callStartFunction, getStartFunction, startReturns, startEvents.
  unfold bind at 1. unfold bind at 1. rewrite log_eq. unfold ret at 1.
  cbv beta iota.
  destruct (startFunction moduleInstance) as [function |]; [| reflexivity].
  unfold bind. rewrite invokeFunctionChecked_eq, after_after.
  cbn [app].
  by destruct (execute E _ function []).
Qed.

Lemma Emscripten_initializeGlobals_eq (E : Engine) (irModule : IRModule)
    (moduleInstance : ModuleInstance) (st : RunState) :
  Emscripten_initializeGlobals E irModule moduleInstance st =
  (if engine_initializeGlobals E (after st [InitializeGlobals]) irModule moduleInstance
   then Ok tt else Fatal RuntimeTrap,
   after st [InitializeGlobals]).
Proof.
  unfold Emscripten_initializeGlobals, bind. rewrite log_eq.
  by destruct (engine_initializeGlobals E _ irModule moduleInstance).
Qed.

Lemma callMain_first_lookup (E : Engine) (options : CommandLineOptions)
    (programFilename : string) (emscriptenInstance : option EmscriptenInstance)
    (moduleInstance : ModuleInstance) (st : RunState) :
  exists (result : Res Z) (st' : RunState) (events : list Event),
    callMain E options programFilename emscriptenInstance moduleInstance st =
      (result, st')
    /\ trace st' = trace st ++ GetInstanceExport "main" :: events.
Proof.
  destruct (asFunctionNullable (exportMap moduleInstance !! "main"))
    as [function |] eqn:Hmain.
  - rewrite (callMain_main _ _ _ _ _ function) by exact Hmain.
    destruct (invokeEntryPoint_events E options programFilename emscriptenInstance
                function (after st [GetInstanceExport "main"]))
      as (result & events & ->).
    exists result, (after (after st [GetInstanceExport "main"]) events), events.
    split; [reflexivity |]. rewrite after_after. reflexivity.
  - destruct (asFunctionNullable (exportMap moduleInstance !! "_main"))
      as [function |] eqn:Hunderscore.
    + rewrite (callMain__main _ _ _ _ _ function) by assumption.
      destruct (invokeEntryPoint_events E options programFilename emscriptenInstance
                  function
                  (after st [GetInstanceExport "main"; GetInstanceExport "_main"]))
        as (result & events & ->).
      eexists result, _, (GetInstanceExport "_main" :: events).
      split; [reflexivity |]. rewrite after_after. reflexivity.
    + rewrite callMain_no_entry_point by assumption.
      eexists _, _, _. split; reflexivity.
Qed.

(** C3 (as the code has it).  Once the module is instantiated, the start
    function is called if there is one; if that call returns (or there is
    none), the very next thing the run does is [initializeGlobals], and if
    that returns, the very next thing is the lookup of "main".  This holds
    whether the shim was instantiated or not: the stage is not guarded by the
    shim.  (A trap in the start function or in the initializers ends the
    process at that point.) *)
Theorem globals_initialized_between (E : Engine) (options : CommandLineOptions)
    (programFilename : string) (emscriptenInstance : option EmscriptenInstance)
    (irModule : IRModule) (moduleInstance : ModuleInstance) (st : RunState) :
  let st1 := after st (startEvents moduleInstance) in
  let st2 := after st (startEvents moduleInstance ++ [InitializeGlobals]) in
  match startReturns E moduleInstance st with
  | Fatal f =>
      runInstance E options programFilename emscriptenInstance irModule
        moduleInstance st = (Fatal f, st1)
  | Ok _ =>
      if engine_initializeGlobals E st2 irModule moduleInstance then
        runInstance E options programFilename emscriptenInstance irModule
          moduleInstance st =
        callMain E options programFilename emscriptenInstance moduleInstance st2
        /\ exists (result : Res Z) (st' : RunState) (events : list Event),
             runInstance E options programFilename emscriptenInstance irModule
               moduleInstance st = (result, st')
             /\ trace st' =
                trace st ++ startEvents moduleInstance
                  ++ InitializeGlobals :: GetInstanceExport "main" :: events
      else
        runInstance E options programFilename emscriptenInstance irModule
          moduleInstance st = (Fatal RuntimeTrap, st2)
  end.
Proof.
  intros st1 st2. unfold runInstance.
  destruct (startReturns E moduleInstance st) as [[] | f] eqn:Hstart.
  - rewrite (bind_ok (callStartFunction E moduleInstance) _ st st1 tt)
      by (rewrite callStartFunction_eq, Hstart; reflexivity).
    pose proof (Emscripten_initializeGlobals_eq E irModule moduleInstance st1)
      as Hinit.
    unfold st1 in Hinit. rewrite after_after in Hinit. fold st2 in Hinit. fold st1 in Hinit.
    destruct (engine_initializeGlobals E st2 irModule moduleInstance).
    2: { by apply bind_fatal. }
    rewrite (bind_ok _ _ _ _ _ Hinit).
    split; [reflexivity |].
    destruct (callMain_first_lookup E options programFilename emscriptenInstance
                moduleInstance st2) as (result & st' & events & Heq & Htrace).
    exists result, st', events. split; [exact Heq |].
    rewrite Htrace. unfold st2. rewrite trace_after, <- !app_assoc. reflexivity.
  - apply bind_fatal. by rewrite callStartFunction_eq, Hstart.
Qed.

(** ** The command line *)

Lemma scan_filename (file : string) (rest : list string) :
  isHelp file = false ->
  (forall (first : string) (others : list string),
     rest = first :: others -> isHelp first = false) ->
  scan None (file :: rest) = ScanEnd {| filename := Some file; args := rest |}.
Proof.
  intros Hfile Hrest. cbn [scan]. rewrite Hfile.
  destruct rest as [| first others]; [reflexivity |].
  cbn [scan]. by rewrite (Hrest first others eq_refl).
Qed.

Lemma scan_help_after_filename (file first : string) (others : list string) :
  isHelp file = false ->
  isHelp first = true ->
  scan None (file :: first :: others) = ScanHelp.
Proof. intros Hfile Hfirst. cbn [scan]. by rewrite Hfile, Hfirst. Qed.

Lemma main_runs (E : Engine) (argv0 file : string) (rest : list string)
    (st : RunState) :
  scan None (file :: rest) = ScanEnd {| filename := Some file; args := rest |} ->
  main E argv0 (file :: rest) st =
  run E {| filename := Some file; args := rest |}
    (after st [SetUnhandledExceptionHandler]).
Proof. intros Hscan. unfold main. rewrite Hscan. reflexivity. Qed.

(** What reaches [injectCommandArgs] for an entry point of two parameters. *)
Lemma marshalled_arguments (E : Engine) (file : string) (rest : list string)
    (instance : EmscriptenInstance) (function : ObjectPtr) (st : RunState) :
  length (params (getFunctionType function)) = 2 ->
  exists (result : Res Z) (invokeArgs : list Value),
    invokeEntryPoint E {| filename := Some file; args := rest |} file
      (Some instance) function st =
    (result,
     after st [InjectCommandArgs (file :: rest); InvokeFunction function invokeArgs]).
Proof.
  intros Harity. rewrite invokeEntryPoint_arity2 by exact Harity.
  eexists _, _. reflexivity.
Qed.

(** C6 (as the code has it).  The first token that is not a help flag is
    the filename.  If the token right after it is a help flag, the usage is
    printed and [main] returns the success status; nothing is run.
    Otherwise the scan ends at the token after the filename, [run] is
    started with all the tokens after the filename as its arguments, in
    order and unchanged, and an entry point of two parameters is given, after
    the filename, exactly those tokens. *)
Theorem arguments_after_filename (E : Engine) (argv0 file : string)
    (rest : list string) (st : RunState) :
  isHelp file = false ->
  (forall (first : string) (others : list string),
     rest = first :: others ->
     isHelp first = true ->
     scan None (file :: rest) = ScanHelp
     /\ exists usage : string,
          main E argv0 (file :: rest) st = (Ok EXIT_SUCCESS, after st [Output usage]))
  /\ ((forall (first : string) (others : list string),
         rest = first :: others -> isHelp first = false) ->
      scan None (file :: rest) = ScanEnd {| filename := Some file; args := rest |}
      /\ main E argv0 (file :: rest) st =
         run E {| filename := Some file; args := rest |}
           (after st [SetUnhandledExceptionHandler])
      /\ forall (instance : EmscriptenInstance) (function : ObjectPtr)
           (st' : RunState),
           length (params (getFunctionType function)) = 2 ->
           exists (result : Res Z) (invokeArgs : list Value),
             invokeEntryPoint E {| filename := Some file; args := rest |} file
               (Some instance) function st' =
             (result,
              after st' [InjectCommandArgs (file :: rest);
                         InvokeFunction function invokeArgs])).
Proof.
  intros Hfile. split.
  - intros first others -> Hfirst.
    pose proof (scan_help_after_filename file first others Hfile Hfirst) as Hscan.
    split; [exact Hscan |].
    unfold main. rewrite Hscan. eexists. reflexivity.
  - intros Hrest.
    pose proof (scan_filename file rest Hfile Hrest) as Hscan.
    split; [exact Hscan |]. split; [by apply main_runs |].
    intros instance function st'. apply marshalled_arguments.
Qed.

(** C10.  A "--" among the tokens after the filename is an argument like any
    other: when the token right after the filename is not a help flag, the
    arguments [run] is started with are all the tokens after the filename,
    the "--" among them, and an entry point of two parameters is given the
    filename followed by all of them. *)
Theorem double_dash_is_an_argument (E : Engine) (argv0 file : string)
    (before following : list string) (st : RunState) :
  isHelp file = false ->
  (forall (first : string) (others : list string),
     before = first :: others -> isHelp first = false) ->
  let rest := before ++ "--" :: following in
  main E argv0 (file :: rest) st =
    run E {| filename := Some file; args := rest |}
      (after st [SetUnhandledExceptionHandler])
  /\ In "--" (args {| filename := Some file; args := rest |})
  /\ forall (instance : EmscriptenInstance) (function : ObjectPtr) (st' : RunState),
       length (params (getFunctionType function)) = 2 ->
       exists (result : Res Z) (invokeArgs : list Value),
         invokeEntryPoint E {| filename := Some file; args := rest |} file
           (Some instance) function st' =
         (result,
          after st' [InjectCommandArgs (file :: before ++ "--" :: following);
                     InvokeFunction function invokeArgs]).
Proof.
  intros Hfile Hbefore rest.
  assert (Hrest : forall (first : string) (others : list string),
             rest = first :: others -> isHelp first = false).
  { intros first others Heq. unfold rest in Heq.
    destruct before as [| b before'].
    - injection Heq as <- _. reflexivity.
    - injection Heq as <- _. by apply (Hbefore b before'). }
  split; [| split].
  - apply main_runs. by apply scan_filename.
  - cbn [args]. unfold rest. apply in_or_app. right. by left.
  - intros instance function st'. apply marshalled_arguments.
Qed.

(** ** The statements at work on the sample worlds *)

Lemma resolve_trichotomy_witness :
  resolve sampleEngine sampleResolver "env" "memory" (MemoryExtern sampleMemoryType)
    initialState =
    (Ok (true, Some sampleMemory), after initialState [GetInstanceExport "memory"])
  /\ (exists (object : Object) (events : list Event),
        getObjectType object = FunctionExtern sampleMainType
        /\ resolve sampleEngine sampleResolver "env" "missingFn"
             (FunctionExtern sampleMainType) initialState =
           (Ok (true, Some {| address := 0; target := object |}),
            after (grown initialState [object]) events))
  /\ (exists (object : Object) (events : list Event),
        getObjectType object = MemoryExtern sampleMemoryType
        /\ resolve sampleEngine sampleResolver "wasi" "memory"
             (MemoryExtern sampleMemoryType) initialState =
           (Ok (true, Some {| address := 0; target := object |}),
            after (grown initialState [object]) events))
  /\ (exists text : string,
        resolve sampleEngine sampleResolver "env" "memory"
          (GlobalExtern {| valueType := i32; isMutable := true |}) initialState =
        (Ok (false, Some sampleMemory),
         after initialState [GetInstanceExport "memory"; Output text]))
  /\ (exists (st1 : RunState) (outs : list Event),
        Forall isOutput outs
        /\ linkAndRun sampleEngine {| filename := Some "a.wast"; args := [] |}
             "a.wast" None sampleResolver mismatchedModule
             {| ir := mismatchedModule |} initialState =
           (Ok EXIT_FAILURE, after st1 outs)).
Proof.
  split; [| split; [| split; [| split]]].
  - apply (proj1 (resolve_trichotomy sampleEngine sampleResolver "env" "memory"
                    (MemoryExtern sampleMemoryType) initialState)
             sampleEnv sampleMemory); vm_compute; reflexivity.
  - apply (proj1 (proj2 (resolve_trichotomy sampleEngine sampleResolver "env"
                           "missingFn" (FunctionExtern sampleMainType)
                           initialState))).
    + right. exists sampleEnv. split; vm_compute; reflexivity.
    + reflexivity.
  - apply (proj1 (proj2 (resolve_trichotomy sampleEngine sampleResolver "wasi"
                           "memory" (MemoryExtern sampleMemoryType)
                           initialState))).
    + left. vm_compute. reflexivity.
    + reflexivity.
  - apply (proj1 (proj2 (proj2 (resolve_trichotomy sampleEngine sampleResolver
                                  "env" "memory"
                                  (GlobalExtern {| valueType := i32;
                                                   isMutable := true |})
                                  initialState))
                    sampleEnv sampleMemory
                    ltac:(vm_compute; reflexivity)
                    ltac:(vm_compute; reflexivity)
                    ltac:(vm_compute; reflexivity))).
  - pose proof (proj2 (proj2 (proj2 (resolve_trichotomy sampleEngine sampleResolver
                                       "env" "memory"
                                       (GlobalExtern {| valueType := i32;
                                                        isMutable := true |})
                                       initialState))
                         sampleEnv sampleMemory
                         ltac:(vm_compute; reflexivity)
                         ltac:(vm_compute; reflexivity)
                         ltac:(vm_compute; reflexivity))
                  {| filename := Some "a.wast"; args := [] |} "a.wast" None
                  mismatchedModule {| ir := mismatchedModule |} initialState
                  (or_introl eq_refl)) as Hlink.
    destruct (linkModule mismatchedModule (resolve sampleEngine sampleResolver)
                initialState) as [[linkResult | f] st1] eqn:Hresult.
    + destruct Hlink as (_ & _ & outs & Houts & Hrun). by exists st1, outs.
    + vm_compute in Hresult. discriminate.
Defined.

Lemma getStubObject_default_branch_witness :
  getStubObject sampleEngine "other" (OtherExtern 255) initialState =
    (Fatal InternalInvariantFault, initialState)
  /\ exists (stub : ObjectPtr) (st' : RunState),
       getStubObject sampleEngine "table"
         (TableExtern {| elementType := otherValueType 112;
                         tableSize := {| initial := 0; maximum := None |} |})
         initialState = (Ok (Some stub), st').
Proof.
  split.
  - apply (proj1 (getStubObject_default_branch sampleEngine "other"
                    (OtherExtern 255) initialState)).
    reflexivity.
  - apply (proj2 (getStubObject_default_branch sampleEngine "table"
                    (TableExtern {| elementType := otherValueType 112;
                                    tableSize := {| initial := 0;
                                                    maximum := None |} |})
                    initialState)).
    reflexivity.
Defined.

Lemma entry_point_arity_dispatch_witness :
  let options := {| filename := Some "a.wast"; args := ["x"; "y"] |} in
  invokeEntryPoint sampleEngine options "a.wast" None (sampleFunction "main" 0)
    initialState =
    (Ok 7%Z, after initialState [InvokeFunction (sampleFunction "main" 0) []])
  /\ invokeEntryPoint sampleEngine options "a.wast" (Some sampleShim)
       (sampleFunction "main" 2) initialState =
     (Ok 7%Z,
      after initialState
        [InjectCommandArgs ["a.wast"; "x"; "y"];
         InvokeFunction (sampleFunction "main" 2)
           [{| valType := i32; untagged := 3%Z |};
            {| valType := i32; untagged := 1024%Z |}]])
  /\ invokeEntryPoint sampleEngine options "a.wast" None (sampleFunction "main" 2)
       initialState = (Fatal PreconditionViolation, initialState)
  /\ exists text : string,
       invokeEntryPoint sampleEngine options "a.wast" (Some sampleShim)
         (sampleFunction "main" 1) initialState =
       (Ok EXIT_FAILURE, after initialState [Output text]).
Proof.
  intros options. split; [| split; [| split]].
  - apply (proj1 (entry_point_arity_dispatch sampleEngine options "a.wast" None
                    (sampleFunction "main" 0) initialState)).
    reflexivity.
  - apply (proj1 (proj2 (entry_point_arity_dispatch sampleEngine options "a.wast"
                           (Some sampleShim) (sampleFunction "main" 2)
                           initialState))
             eq_refl sampleShim eq_refl).
  - apply (proj1 (proj2 (proj2 (entry_point_arity_dispatch sampleEngine options
                                  "a.wast" None (sampleFunction "main" 2)
                                  initialState)))); reflexivity.
  - apply (proj2 (proj2 (proj2 (entry_point_arity_dispatch sampleEngine options
                                  "a.wast" (Some sampleShim)
                                  (sampleFunction "main" 1) initialState))));
      cbn; lia.
Defined.

Lemma exit_status_mapping_witness :
  mapExitStatus [{| valType := i32; untagged := 7%Z |}] = 7%Z
  /\ mapExitStatus [{| valType := i32; untagged := (2 ^ 32 - 1)%Z |}] = (-1)%Z
  /\ mapExitStatus [{| valType := otherValueType 126; untagged := 7%Z |}] =
     EXIT_SUCCESS
  /\ exists (invokeArgs functionResults : list Value),
       execute sampleEngine
         (after initialState [InvokeFunction (sampleFunction "main" 0) []])
         (sampleFunction "main" 0) invokeArgs = Ok functionResults
       /\ 7%Z = mapExitStatus functionResults.
Proof.
  split; [| split; [| split]].
  - apply (proj1 exit_status_mapping {| valType := i32; untagged := 7%Z |}).
    reflexivity.
  - apply (proj1 exit_status_mapping
             {| valType := i32; untagged := (2 ^ 32 - 1)%Z |}).
    reflexivity.
  - apply (proj1 (proj2 (proj2 (proj2 exit_status_mapping)))
             {| valType := otherValueType 126; untagged := 7%Z |}).
    discriminate.
  - destruct (proj2 (proj2 (proj2 (proj2 exit_status_mapping))) sampleEngine
                {| filename := Some "a.wast"; args := [] |} "a.wast" None
                (sampleFunction "main" 0) initialState
                (after initialState [InvokeFunction (sampleFunction "main" 0) []])
                7%Z eq_refl (or_introl eq_refl))
      as (invokeArgs & functionResults & _ & Hexec & Hstatus).
    exists invokeArgs, functionResults. by split.
Defined.

Lemma entry_point_lookup_witness :
  callMain sampleEngine {| filename := Some "a.wast"; args := [] |} "a.wast" None
    sampleInstance initialState =
    invokeEntryPoint sampleEngine {| filename := Some "a.wast"; args := [] |}
      "a.wast" None (sampleFunction "main" 0)
      (after initialState [GetInstanceExport "main"])
  /\ callMain sampleEngine {| filename := Some "a.wast"; args := [] |} "a.wast"
       (Some sampleShim)
       sampleUnderscoreInstance initialState =
     invokeEntryPoint sampleEngine {| filename := Some "a.wast"; args := [] |}
       "a.wast" (Some sampleShim) (sampleFunction "_main" 2)
       (after initialState [GetInstanceExport "main"; GetInstanceExport "_main"])
  /\ callMain sampleEngine {| filename := Some "a.wast"; args := [] |} "a.wast" None
       sampleEnv initialState =
     (Ok EXIT_FAILURE,
      after initialState
        [GetInstanceExport "main"; GetInstanceExport "_main";
         Output "Module does not export main function"]).
Proof.
  split; [| split].
  - apply (proj1 (entry_point_lookup sampleEngine
                    {| filename := Some "a.wast"; args := [] |} "a.wast" None
                    sampleInstance initialState) (sampleFunction "main" 0)).
    vm_compute. reflexivity.
  - apply (proj1 (proj2 (entry_point_lookup sampleEngine
                           {| filename := Some "a.wast"; args := [] |} "a.wast"
                           (Some sampleShim)
                           sampleUnderscoreInstance initialState))
             ltac:(vm_compute; reflexivity) (sampleFunction "_main" 2)).
    vm_compute. reflexivity.
  - apply (proj2 (proj2 (entry_point_lookup sampleEngine
                           {| filename := Some "a.wast"; args := [] |} "a.wast"
                           None sampleEnv initialState)));
      vm_compute; reflexivity.
Defined.

Lemma arguments_after_filename_witness :
  (exists usage : string,
     main sampleEngine "wavm-run" ["prog.wast"; "-h"; "x"] initialState =
     (Ok EXIT_SUCCESS, after initialState [Output usage]))
  /\ main sampleEngine "wavm-run" ["prog.wast"; "x"; "--help"] initialState =
     run sampleEngine {| filename := Some "prog.wast"; args := ["x"; "--help"] |}
       (after initialState [SetUnhandledExceptionHandler])
  /\ exists (result : Res Z) (invokeArgs : list Value),
       invokeEntryPoint sampleEngine
         {| filename := Some "prog.wast"; args := ["x"; "--help"] |} "prog.wast"
         (Some sampleShim) (sampleFunction "main" 2) initialState =
       (result,
        after initialState
          [InjectCommandArgs ["prog.wast"; "x"; "--help"];
           InvokeFunction (sampleFunction "main" 2) invokeArgs]).
Proof.
  split; [| split].
  - apply (proj1 (arguments_after_filename sampleEngine "wavm-run" "prog.wast"
                    ["-h"; "x"] initialState eq_refl) "-h" ["x"]); reflexivity.
  - apply (proj2 (arguments_after_filename sampleEngine "wavm-run" "prog.wast"
                    ["x"; "--help"] initialState eq_refl)).
    intros first others Heq. injection Heq as <- _. reflexivity.
  - apply (proj2 (arguments_after_filename sampleEngine "wavm-run" "prog.wast"
                    ["x"; "--help"] initialState eq_refl)).
    + intros first others Heq. injection Heq as <- _. reflexivity.
    + reflexivity.
Defined.

Lemma double_dash_is_an_argument_witness :
  main sampleEngine "wavm-run" ["prog.wast"; "--"; "x"] initialState =
    run sampleEngine {| filename := Some "prog.wast"; args := ["--"; "x"] |}
      (after initialState [SetUnhandledExceptionHandler])
  /\ exists (result : Res Z) (invokeArgs : list Value),
       invokeEntryPoint sampleEngine
         {| filename := Some "prog.wast"; args := ["x"; "--"; "y"] |} "prog.wast"
         (Some sampleShim) (sampleFunction "main" 2) initialState =
       (result,
        after initialState
          [InjectCommandArgs ["prog.wast"; "x"; "--"; "y"];
           InvokeFunction (sampleFunction "main" 2) invokeArgs]).
Proof.
  split.
  - apply (double_dash_is_an_argument sampleEngine "wavm-run" "prog.wast" []
             ["x"] initialState eq_refl).
    intros first others Heq. discriminate.
  - apply (double_dash_is_an_argument sampleEngine "wavm-run" "prog.wast" ["x"]
             ["y"] initialState eq_refl).
    + intros first others Heq. injection Heq as <- _. reflexivity.
    + reflexivity.
Defined.

(** ** Where the code departs from the spec as stated *)

(** C3 as stated fails: on a host without the shim, the run of the sample
    module still calls the global initializers, between the query for the
    start function and the lookup of "main". *)
Lemma initializers_run_without_shim :
  (exists entry : ObjectPtr,
     main sampleEngine "wavm-run" ["a.wast"] initialState =
     (Ok 7%Z,
      {| compartment := [target entry];
         trace := [SetUnhandledExceptionHandler; CompileModule; CreateCompartment;
                   CreateContext; EmscriptenInstantiate false;
                   InstantiateModule "a.wast"; GetStartFunction;
                   InitializeGlobals; GetInstanceExport "main";
                   InvokeFunction entry []] |}))
  /\ ~ shimGated (trace (main sampleEngine "wavm-run" ["a.wast"] initialState).2).
Proof.
  split.
  - eexists {| address := 0; target := _ |}. vm_compute. reflexivity.
  - unfold shimGated. intros Hgated.
    assert (Hinit : In InitializeGlobals
                      (trace (main sampleEngine "wavm-run" ["a.wast"]
                                initialState).2))
      by (vm_compute; tauto).
    specialize (Hgated Hinit). vm_compute in Hgated.
    repeat (destruct Hgated as [Hgated | Hgated]; [discriminate |]).
    exact Hgated.
Qed.

(** C6 as stated fails: a help flag right after the filename is taken as an
    option; the usage is printed and nothing is run. *)
Lemma help_after_filename_is_an_option :
  (exists usage : string,
     main sampleEngine "wavm-run" ["prog.wast"; "--help"] initialState =
     (Ok EXIT_SUCCESS, {| compartment := []; trace := [Output usage] |}))
  /\ ~ everyTokenPassedOn "prog.wast" ["--help"].
Proof.
  split.
  - eexists. vm_compute. reflexivity.
  - unfold everyTokenPassedOn. vm_compute. discriminate.
Qed.

(** ** Scenarios of the spec, on the sample world *)

(** "Module's main has zero parameters and returns the integer value 7.
    Expected: process exit status is literally 7." *)
Example scenario_exit_status :
  (main sampleEngine "wavm-run" ["a.wast"] initialState).1 = Ok 7%Z.
Proof. vm_compute. reflexivity. Qed.

(** "Invocation with --help as first argument.  Expected: usage text printed;
    success exit status; no file ever loaded." *)
Example scenario_help :
  exists usage : string,
    main sampleEngine "wavm-run" ["--help"; "a.wast"] initialState =
    (Ok EXIT_SUCCESS, {| compartment := []; trace := [Output usage] |}).
Proof. eexists. vm_compute. reflexivity. Qed.

(** "No filename supplied - prints usage, exits with failure status." *)
Example scenario_no_filename :
  exists usage : string,
    main sampleEngine "wavm-run" [] initialState =
    (Ok EXIT_FAILURE, {| compartment := []; trace := [Output usage] |}).
Proof. eexists. vm_compute. reflexivity. Qed.

(** "Module exports no main or _main.  Expected: diagnostic [...]; failure
    exit status." *)
Example scenario_no_entry_point :
  runInstance sampleEngine {| filename := Some "a.wast"; args := [] |} "a.wast"
    None sampleModule sampleEnv initialState =
  (Ok EXIT_FAILURE,
   {| compartment := [];
      trace := [GetStartFunction; InitializeGlobals; GetInstanceExport "main";
                GetInstanceExport "_main";
                Output "Module does not export main function"] |}).
Proof. vm_compute. reflexivity. Qed.

(** * Further properties of the driver *)

(** ** The command line, in full *)

Lemma showHelp_eq (st : RunState) :
  showHelp st = (Ok tt, after st [Output usageText]).
Proof. reflexivity. Qed.

(** X1.  When the scan of [main] ends without the help message, no token has
    been lost or reordered: the filename, if one was found, followed by the
    arguments is the command line as it was; the filename is the first token,
    and neither it nor the first argument is a help flag. *)
Theorem scan_partition (tokens : list string) (options : CommandLineOptions) :
  scan None tokens = ScanEnd options ->
  tokensOf options = tokens
  /\ filename options = head tokens
  /\ (forall file : string, filename options = Some file -> isHelp file = false)
  /\ (forall (first : string) (others : list string),
        args options = first :: others -> isHelp first = false).
Proof.
  intros Hscan. destruct tokens as [| t1 rest].
  - cbn in Hscan. injection Hscan as <-. repeat split; try discriminate.
  - cbn [scan] in Hscan. destruct (isHelp t1) eqn:H1; [discriminate |].
    destruct rest as [| t2 rest'].
    + cbn in Hscan. injection Hscan as <-. repeat split; try discriminate.
      intros file [= <-]. exact H1.
    + cbn [scan] in Hscan. destruct (isHelp t2) eqn:H2; [discriminate |].
      injection Hscan as <-. repeat split.
      * intros file [= <-]. exact H1.
      * intros first others [= <- _]. exact H2.
Qed.

(** X2.  What [main] does, by its tokens alone: when a help flag is among
    the first two tokens it prints the usage and returns the success status;
    when there is no token it prints the usage and returns the failure
    status; in both cases that is all it does.  In every other case it
    installs the exception handler and starts [run] with the first token as
    the filename and all the tokens after it as the arguments. *)
Theorem main_by_tokens (E : Engine) (argv0 : string) (arguments : list string)
    (st : RunState) :
  main E argv0 arguments st =
  if helpRequested arguments
  then (Ok EXIT_SUCCESS, after st [Output usageText])
  else
    match arguments with
    | [] => (Ok EXIT_FAILURE, after st [Output usageText])
    | file :: rest =>
        run E {| filename := Some file; args := rest |}
          (after st [SetUnhandledExceptionHandler])
    end.
Proof.
  unfold main, helpRequested. destruct arguments as [| t1 rest].
  - reflexivity.
  - cbn [scan]. destruct (isHelp t1); [reflexivity |]. cbn [orb].
    destruct rest as [| t2 rest'].
    + reflexivity.
    + cbn [scan]. destruct (isHelp t2); reflexivity.
Qed.

(** ** Loading *)

Lemma append_empty_r (text : string) : text +:+ EmptyString = text.
Proof.
  induction text as [| c text IH]; [reflexivity |].
  change (String c (text +:+ EmptyString) = String c text). by rewrite IH.
Qed.

(** [loadModule] never ends the process and never allocates. *)
Lemma loadModule_result (E : Engine) (file : string) (st : RunState) :
  exists (loaded : option IRModule) (outs : list Event),
    loadModule E file st = (Ok loaded, after st outs)
    /\ (loaded <> None -> outs = []).
Proof.
  unfold loadModule. destruct (engine_loadFile E file) as [fileBytes |].
  - destruct (engine_parseModule E (fileBytes ++ [Byte.x00])) as [ir | errors].
    + exists (Some ir), []. by rewrite after_nil.
    + eexists None, _. split.
      * unfold bind, output. rewrite !log_eq. cbv beta iota.
        rewrite after_after. reflexivity.
      * intros Hsome. by destruct Hsome.
  - exists None, []. by rewrite after_nil.
Qed.

(** X3.  A file that cannot be read ends [run] with the failure status and
    nothing printed or done.  A file that is read is handed to the parser
    with a zero byte appended; when the parser rejects it, [run] prints
    "Error parsing WebAssembly text file:", then the report of the errors
    for that filename, and returns the failure status: nothing is compiled,
    instantiated or invoked. *)
Theorem run_load_failure (E : Engine) (file : string) (arguments : list string)
    (st : RunState) :
  (engine_loadFile E file = None ->
     run E {| filename := Some file; args := arguments |} st = (Ok EXIT_FAILURE, st))
  /\ (forall (fileBytes : list Byte.byte) (parseErrors : list string),
        engine_loadFile E file = Some fileBytes ->
        engine_parseModule E (fileBytes ++ [Byte.x00]) = inr parseErrors ->
        run E {| filename := Some file; args := arguments |} st =
        (Ok EXIT_FAILURE,
         after st [Output ("Error parsing WebAssembly text file:" +:+ newline);
                   Output (engine_reportParseErrors E file parseErrors)])).
Proof.
  split.
  - intros Hload. unfold run. cbn [filename].
    unfold bind, loadModule. rewrite Hload. reflexivity.
  - intros fileBytes parseErrors Hload Hparse. unfold run. cbn [filename].
    unfold bind at 1. unfold loadModule. rewrite Hload, Hparse.
    unfold bind, output. rewrite !log_eq. cbv beta iota.
    unfold ret. rewrite after_after. cbn [foldr app].
    by rewrite !append_empty_r.
Qed.

(** ** Resolution, read backwards *)

Lemma resolve_other_kind (E : Engine) (resolver : RootResolver)
    (moduleName exportName : string) (type : ExternType) (st : RunState) :
  moduleNameToInstanceMap resolver !! moduleName = None
  \/ (exists instance : ModuleInstance,
        moduleNameToInstanceMap resolver !! moduleName = Some instance
        /\ exportMap instance !! exportName = None) ->
  closedKind (kind type) = false ->
  exists events : list Event,
    resolve E resolver moduleName exportName type st =
    (Fatal InternalInvariantFault, after st events).
Proof.
  intros Habsent Hother. destruct type; try discriminate.
  unfold resolve. destruct Habsent as [Hmodule | (instance & Hmodule & Hexport)];
    rewrite Hmodule.
  - exists []. by rewrite after_nil.
  - rewrite (bind_ok _ _ _ _ _ (getInstanceExport_eq instance exportName st)).
    rewrite Hexport. eexists. reflexivity.
Qed.

(** The three ways the lookup of [resolve] can go. *)
Lemma resolve_lookup (E : Engine) (resolver : RootResolver)
    (moduleName exportName : string) (type : ExternType) :
  (moduleNameToInstanceMap resolver !! moduleName = None
   \/ (exists instance : ModuleInstance,
         moduleNameToInstanceMap resolver !! moduleName = Some instance
         /\ exportMap instance !! exportName = None))
  \/ exists (instance : ModuleInstance) (object : ObjectPtr),
       moduleNameToInstanceMap resolver !! moduleName = Some instance
       /\ exportMap instance !! exportName = Some object.
Proof.
  destruct (moduleNameToInstanceMap resolver !! moduleName) as [instance |] eqn:Hm.
  - destruct (exportMap instance !! exportName) as [object |] eqn:He.
    + right. eauto.
    + left. right. eauto.
  - left. by left.
Qed.

(** X4.  Whatever [resolve] binds is right for the import: when it returns
    true, the object it hands back is either the export of that name of the
    registered module, for which [isA] holds at the expected type, and then
    nothing was allocated; or a stub this call allocated, at the next free
    address, whose type is exactly the expected type.  It never returns true
    with a null object. *)
Theorem resolve_sound (E : Engine) (resolver : RootResolver)
    (moduleName exportName : string) (type : ExternType) (st st' : RunState)
    (outObject : option ObjectPtr) :
  resolve E resolver moduleName exportName type st = (Ok (true, outObject), st') ->
  exists object : ObjectPtr,
    outObject = Some object
    /\ ((exists instance : ModuleInstance,
           moduleNameToInstanceMap resolver !! moduleName = Some instance
           /\ exportMap instance !! exportName = Some object
           /\ engine_isA E (target object) type = true
           /\ compartment st' = compartment st)
        \/ (getObjectType (target object) = type
            /\ address object = length (compartment st)
            /\ compartment st' = compartment st ++ [target object])).
Proof.
  intros Hresolve.
  destruct (resolve_lookup E resolver moduleName exportName type)
    as [Habsent | (instance & object & Hmodule & Hexport)].
  - destruct (closedKind (kind type)) eqn:Hkind.
    + destruct (resolve_stub E resolver moduleName exportName type st Habsent Hkind)
        as (stub & events & Htype & Heq).
      rewrite Heq in Hresolve. injection Hresolve as <- <-.
      eexists. split; [reflexivity |]. right. by repeat split.
    + destruct (resolve_other_kind E resolver moduleName exportName type st
                  Habsent Hkind) as (events & Heq).
      rewrite Heq in Hresolve. discriminate.
  - destruct (engine_isA E (target object) type) eqn:HisA.
    + rewrite (resolve_bound E resolver _ _ _ st instance object Hmodule Hexport HisA)
        in Hresolve.
      injection Hresolve as <- <-.
      exists object. split; [reflexivity |]. left. exists instance. by repeat split.
    + destruct (resolve_mismatch E resolver _ _ _ st instance object
                  Hmodule Hexport HisA) as (text & Heq).
      rewrite Heq in Hresolve. discriminate.
Qed.

(** X5.  A mismatch is the only way [resolve] fails: when it returns false,
    the module is registered, it exports the name, [isA] does not hold for
    that export at the expected type, [outObject] is that export, and nothing
    was allocated. *)
Theorem resolve_fails_only_on_mismatch (E : Engine) (resolver : RootResolver)
    (moduleName exportName : string) (type : ExternType) (st st' : RunState)
    (outObject : option ObjectPtr) :
  resolve E resolver moduleName exportName type st = (Ok (false, outObject), st') ->
  exists (instance : ModuleInstance) (object : ObjectPtr),
    moduleNameToInstanceMap resolver !! moduleName = Some instance
    /\ exportMap instance !! exportName = Some object
    /\ engine_isA E (target object) type = false
    /\ outObject = Some object
    /\ compartment st' = compartment st.
Proof.
  intros Hresolve.
  destruct (resolve_lookup E resolver moduleName exportName type)
    as [Habsent | (instance & object & Hmodule & Hexport)].
  - destruct (closedKind (kind type)) eqn:Hkind.
    + destruct (resolve_stub E resolver moduleName exportName type st Habsent Hkind)
        as (stub & events & Htype & Heq).
      rewrite Heq in Hresolve. discriminate.
    + destruct (resolve_other_kind E resolver moduleName exportName type st
                  Habsent Hkind) as (events & Heq).
      rewrite Heq in Hresolve. discriminate.
  - destruct (engine_isA E (target object) type) eqn:HisA.
    + rewrite (resolve_bound E resolver _ _ _ st instance object Hmodule Hexport HisA)
        in Hresolve. discriminate.
    + destruct (resolve_mismatch E resolver _ _ _ st instance object
                  Hmodule Hexport HisA) as (text & Heq).
      rewrite Heq in Hresolve. injection Hresolve as <- <-.
      exists instance, object. by repeat split.
Qed.

Lemma grown_grown (st : RunState) (l1 l2 : list Object) :
  grown (grown st l1) l2 = grown st (l1 ++ l2).
Proof. unfold grown. simpl. by rewrite app_assoc. Qed.

Lemma grown_nil (st : RunState) : grown st [] = st.
Proof. destruct st as [c tr]. unfold grown. simpl. by rewrite app_nil_r. Qed.

(** X6.  Stubs are never shared: two imports that have to be stubbed, one
    after the other, get two objects, the second at the address after the
    first, even when the two imports are the same; and the compartment has
    grown by exactly these two objects. *)
Theorem stubs_are_not_shared (E : Engine) (resolver : RootResolver)
    (moduleName1 exportName1 moduleName2 exportName2 : string)
    (type1 type2 : ExternType) (st : RunState) :
  moduleNameToInstanceMap resolver !! moduleName1 = None ->
  moduleNameToInstanceMap resolver !! moduleName2 = None ->
  closedKind (kind type1) = true ->
  closedKind (kind type2) = true ->
  exists (stub1 stub2 : ObjectPtr) (st1 st2 : RunState),
    resolve E resolver moduleName1 exportName1 type1 st =
      (Ok (true, Some stub1), st1)
    /\ resolve E resolver moduleName2 exportName2 type2 st1 =
       (Ok (true, Some stub2), st2)
    /\ address stub1 = length (compartment st)
    /\ address stub2 = S (address stub1)
    /\ compartment st2 = compartment st ++ [target stub1; target stub2].
Proof.
  intros Hm1 Hm2 Hk1 Hk2.
  destruct (resolve_stub E resolver moduleName1 exportName1 type1 st
              (or_introl Hm1) Hk1) as (o1 & events1 & _ & Heq1).
  destruct (resolve_stub E resolver moduleName2 exportName2 type2
              (after (grown st [o1]) events1) (or_introl Hm2) Hk2)
    as (o2 & events2 & _ & Heq2).
  eexists _, _, _, _. split; [exact Heq1 |]. split; [exact Heq2 |].
  cbn [address target compartment after grown].
  rewrite length_app. cbn [length]. rewrite <- app_assoc.
  repeat split. lia.
Qed.

(** The stubs of the three other kinds.  For a memory and for a table
    [getStubObject] allocates one object of exactly the requested type, named
    after the export; for an exception type, one object of exactly the
    requested type, named "importStub" whatever the export is called.  None
    of the three goes through the compiler: the trace is left as it is. *)
Theorem getStubObject_memory_table_exceptionType (E : Engine) (exportName : string)
    (st : RunState) :
  (forall memoryType : MemoryType,
     getStubObject E exportName (MemoryExtern memoryType) st =
     (Ok (Some {| address := length (compartment st);
                  target := MemoryObject memoryType exportName |}),
      grown st [MemoryObject memoryType exportName]))
  /\ (forall tableType : TableType,
        getStubObject E exportName (TableExtern tableType) st =
        (Ok (Some {| address := length (compartment st);
                     target := TableObject tableType exportName |}),
         grown st [TableObject tableType exportName]))
  /\ (forall tagType : ExceptionType,
        getStubObject E exportName (ExceptionTypeExtern tagType) st =
        (Ok (Some {| address := length (compartment st);
                     target := ExceptionTypeObject tagType "importStub" |}),
         grown st [ExceptionTypeObject tagType "importStub"])).
Proof. repeat split. Qed.

(** ** Linking *)

Lemma Emscripten_instantiate_eq (E : Engine) (irModule : IRModule) (st : RunState)
    (emscriptenInstance : option EmscriptenInstance) (c : Compartment) :
  engine_emscriptenInstantiate E st irModule = (emscriptenInstance, c) ->
  Emscripten_instantiate E irModule st =
  (Ok emscriptenInstance,
   {| compartment := c;
      trace := trace st
                 ++ [EmscriptenInstantiate (bool_decide (is_Some emscriptenInstance))] |}).
Proof. intros Hshim. unfold Emscripten_instantiate. by rewrite Hshim. Qed.

Lemma run_links_with (E : Engine) (file : string) (arguments : list string)
    (st st0 : RunState) (irModule : IRModule)
    (emscriptenInstance : option EmscriptenInstance) (c : Compartment) :
  loadModule E file st = (Ok (Some irModule), st0) ->
  engine_emscriptenInstantiate E
    {| compartment := [];
       trace := trace st0 ++ [CompileModule; CreateCompartment; CreateContext] |}
    irModule = (emscriptenInstance, c) ->
  run E {| filename := Some file; args := arguments |} st =
  linkAndRun E {| filename := Some file; args := arguments |} file
    emscriptenInstance (rootResolverOf emscriptenInstance) irModule
    {| ir := irModule |}
    {| compartment := c;
       trace := trace st0 ++ [CompileModule; CreateCompartment; CreateContext;
                              EmscriptenInstantiate
                                (bool_decide (is_Some emscriptenInstance))] |}.
Proof.
  intros Hload Hshim. unfold run. cbn [filename].
  rewrite (bind_ok _ _ _ _ _ Hload).
  rewrite (bind_ok (compileModule irModule) _ st0 (after st0 [CompileModule])
             {| ir := irModule |} eq_refl).
  rewrite (bind_ok createCompartment _ (after st0 [CompileModule])
             {| compartment := [];
                trace := trace (after st0 [CompileModule]) ++ [CreateCompartment] |}
             tt eq_refl).
  rewrite (bind_ok createContext _ _ _ tt (log_eq CreateContext _)).
  assert (Hstate :
    after {| compartment := [];
             trace := trace (after st0 [CompileModule]) ++ [CreateCompartment] |}
      [CreateContext] =
    {| compartment := [];
       trace := trace st0 ++ [CompileModule; CreateCompartment; CreateContext] |}).
  { unfold after. cbn [compartment trace]. by rewrite <- !app_assoc. }
  rewrite Hstate.
  rewrite (bind_ok _ _ _ _ _ (Emscripten_instantiate_eq E irModule _ _ _ Hshim)).
  cbn [trace]. rewrite <- !app_assoc. cbn [app].
  by destruct emscriptenInstance.
Qed.

(** X7.  The registry [run] links against holds exactly the two namespaces of
    the shim, "env" and "asm2wasm", when the shim was instantiated, and
    nothing at all when it was not: every other module name is
    unregistered.  [run] links with that registry once the file is loaded. *)
Theorem run_registry (E : Engine) (emscriptenInstance : option EmscriptenInstance) :
  (forall name : string,
     moduleNameToInstanceMap (rootResolverOf emscriptenInstance) !! name =
     match emscriptenInstance with
     | Some instance =>
         if decide (name = "asm2wasm") then Some (asm2wasm instance)
         else if decide (name = "env") then Some (env instance)
         else None
     | None => None
     end)
  /\ forall (file : string) (arguments : list string) (st st0 : RunState)
       (irModule : IRModule) (c : Compartment),
       loadModule E file st = (Ok (Some irModule), st0) ->
       engine_emscriptenInstantiate E
         {| compartment := [];
            trace := trace st0 ++ [CompileModule; CreateCompartment; CreateContext] |}
         irModule = (emscriptenInstance, c) ->
       run E {| filename := Some file; args := arguments |} st =
       linkAndRun E {| filename := Some file; args := arguments |} file
         emscriptenInstance (rootResolverOf emscriptenInstance) irModule
         {| ir := irModule |}
         {| compartment := c;
            trace := trace st0 ++ [CompileModule; CreateCompartment; CreateContext;
                                   EmscriptenInstantiate
                                     (bool_decide (is_Some emscriptenInstance))] |}.
Proof.
  split.
  - intros name. destruct emscriptenInstance as [instance |].
    + unfold rootResolverOf, set. cbn [moduleNameToInstanceMap].
      destruct (decide (name = "asm2wasm")) as [-> | Hasm].
      * by rewrite lookup_insert_eq.
      * rewrite lookup_insert_ne by done.
        destruct (decide (name = "env")) as [-> | Henv].
        -- by rewrite lookup_insert_eq.
        -- rewrite lookup_insert_ne by done. apply lookup_empty.
    + apply lookup_empty.
  - intros file arguments st st0 irModule c. apply run_links_with.
Qed.

Lemma linkImports_unregistered (E : Engine) (resolver : RootResolver)
    (declared : list Import) :
  Forall (fun import : Import =>
            moduleNameToInstanceMap resolver !! importModuleName import = None
            /\ closedKind (kind (importType import)) = true) declared ->
  forall st : RunState,
    exists (stubs : list ObjectPtr) (events : list Event),
      linkImports (resolve E resolver) declared st =
        (Ok (map Some stubs, []), after (grown st (map target stubs)) events)
      /\ Forall2 (fun (import : Import) (stub : ObjectPtr) =>
                    getObjectType (target stub) = importType import) declared stubs
      /\ map address stubs = seq (length (compartment st)) (length declared).
Proof.
  induction 1 as [| import rest [Hmodule Hkind] _ IH]; intros st.
  - exists [], []. cbn. rewrite grown_nil, after_nil. repeat split. constructor.
  - destruct (resolve_stub E resolver (importModuleName import)
                (importExportName import) (importType import) st
                (or_introl Hmodule) Hkind) as (object & events & Htype & Hresolve).
    destruct (IH (after (grown st [object]) events))
      as (stubs & events' & Hlink & Htypes & Haddresses).
    exists ({| address := length (compartment st); target := object |} :: stubs),
      (events ++ events').
    split; [| split].
    + cbn [linkImports]. rewrite (bind_ok _ _ _ _ _ Hresolve).
      rewrite (bind_ok _ _ _ _ _ Hlink). unfold ret. cbn [fst snd map target].
      rewrite grown_after, grown_grown, after_after. reflexivity.
    + constructor; [exact Htype | exact Htypes].
    + cbn [map address length seq]. f_equal. rewrite Haddresses.
      cbn [compartment after grown]. rewrite length_app. cbn [length].
      by rewrite Nat.add_1_r.
Qed.

(** X8.  Imports nobody provides never make the link fail.  When none of the
    modules a module imports from is registered (in particular on a host
    without the shim) and its imports are of the five kinds, [linkModule]
    succeeds with no missing import: every import is bound, in declaration
    order, to a stub of its own, of exactly its declared type, at consecutive
    addresses from the next free one, and the compartment has grown by
    exactly these stubs. *)
Theorem unregistered_imports_are_stubbed (E : Engine) (resolver : RootResolver)
    (irModule : IRModule) (st : RunState) :
  Forall (fun import : Import =>
            moduleNameToInstanceMap resolver !! importModuleName import = None
            /\ closedKind (kind (importType import)) = true) (imports irModule) ->
  exists (stubs : list ObjectPtr) (events : list Event),
    linkModule irModule (resolve E resolver) st =
      (Ok {| resolvedImports := map Some stubs; missingImports := [];
             success := true |},
       after (grown st (map target stubs)) events)
    /\ Forall2 (fun (import : Import) (stub : ObjectPtr) =>
                  getObjectType (target stub) = importType import)
         (imports irModule) stubs
    /\ map address stubs =
       seq (length (compartment st)) (length (imports irModule)).
Proof.
  intros Hall.
  destruct (linkImports_unregistered E resolver (imports irModule) Hall st)
    as (stubs & events & Hlink & Htypes & Haddresses).
  exists stubs, events. split; [| by split].
  unfold linkModule. rewrite (bind_ok _ _ _ _ _ Hlink). reflexivity.
Qed.



(** ** Statuses and faults *)

(** X12.  There is no falling back on "_main": when "main" is exported as a
    function whose number of parameters is neither 0 nor 2, the run prints
    the diagnostic and returns the failure status, without looking "_main"
    up and without invoking anything, whatever "_main" is. *)
Theorem no_fallback_on_unsupported_main (E : Engine) (options : CommandLineOptions)
    (programFilename : string) (emscriptenInstance : option EmscriptenInstance)
    (moduleInstance : ModuleInstance) (function : ObjectPtr) (st : RunState) :
  asFunctionNullable (exportMap moduleInstance !! "main") = Some function ->
  length (params (getFunctionType function)) <> 0 ->
  length (params (getFunctionType function)) <> 2 ->
  exists text : string,
    callMain E options programFilename emscriptenInstance moduleInstance st =
    (Ok EXIT_FAILURE, after st [GetInstanceExport "main"; Output text]).
Proof.
  intros Hmain H0 H2.
  rewrite (callMain_main _ _ _ _ _ function) by exact Hmain.
  destruct (invokeEntryPoint_unsupported E options programFilename
              emscriptenInstance function (after st [GetInstanceExport "main"])
              H0 H2) as (text & ->).
  exists text. by rewrite after_after.
Qed.

Lemma callMain_status (E : Engine) (options : CommandLineOptions)
    (programFilename : string) (emscriptenInstance : option EmscriptenInstance)
    (moduleInstance : ModuleInstance) (st st' : RunState) (status : Z) :
  callMain E options programFilename emscriptenInstance moduleInstance st =
    (Ok status, st') ->
  status = EXIT_FAILURE \/ entryInvoked E st' status.
Proof.
  intros Hrun.
  destruct (asFunctionNullable (exportMap moduleInstance !! "main"))
    as [function |] eqn:Hmain.
  - rewrite (callMain_main _ _ _ _ _ function) in Hrun by exact Hmain.
    destruct (invokeEntryPoint_status _ _ _ _ _ _ _ _ Hrun)
      as [(invokeArgs & functionResults & H) | (_ & _ & -> & _)];
      [right; by exists function, invokeArgs, functionResults | by left].
  - destruct (asFunctionNullable (exportMap moduleInstance !! "_main"))
      as [function |] eqn:Hunderscore.
    + rewrite (callMain__main _ _ _ _ _ function) in Hrun by assumption.
      destruct (invokeEntryPoint_status _ _ _ _ _ _ _ _ Hrun)
        as [(invokeArgs & functionResults & H) | (_ & _ & -> & _)];
        [right; by exists function, invokeArgs, functionResults | by left].
    + rewrite callMain_no_entry_point in Hrun by assumption.
      injection Hrun as <- _. by left.
Qed.

Lemma runInstance_status (E : Engine) (options : CommandLineOptions)
    (programFilename : string) (emscriptenInstance : option EmscriptenInstance)
    (irModule : IRModule) (moduleInstance : ModuleInstance) (st st' : RunState)
    (status : Z) :
  runInstance E options programFilename emscriptenInstance irModule moduleInstance st =
    (Ok status, st') ->
  status = EXIT_FAILURE \/ entryInvoked E st' status.
Proof.
  unfold runInstance. intros Hrun.
  pose proof (callStartFunction_eq E moduleInstance st) as Hstart.
  destruct (startReturns E moduleInstance st) as [[] | f].
  2: { rewrite (bind_fatal _ _ _ _ _ Hstart) in Hrun. discriminate. }
  rewrite (bind_ok _ _ _ _ _ Hstart) in Hrun.
  pose proof (Emscripten_initializeGlobals_eq E irModule moduleInstance
                (after st (startEvents moduleInstance))) as Hinit.
  destruct (engine_initializeGlobals E _ irModule moduleInstance).
  2: { rewrite (bind_fatal _ _ _ _ _ Hinit) in Hrun. discriminate. }
  rewrite (bind_ok _ _ _ _ _ Hinit) in Hrun.
  by apply (callMain_status _ _ _ _ _ _ _ _ Hrun).
Qed.

(** [instantiateModule] never ends the process. *)
Lemma instantiateModule_ok (E : Engine) (module : Module)
    (imports : list (option ObjectPtr)) (debugName : string) (st : RunState) :
  exists (instance : option ModuleInstance) (st' : RunState),
    instantiateModule E module imports debugName st = (Ok instance, st')
    /\ trace st' = trace st ++ [InstantiateModule debugName].
Proof.
  unfold instantiateModule, bind. rewrite log_eq.
  destruct (instantiateFunctions (ir module) _) as [[instance objects] |].
  - eexists _, _. split; reflexivity.
  - destruct (engine_instantiateModule E _ module imports debugName)
      as [instance c].
    eexists _, _. split; reflexivity.
Qed.

Lemma linkAndRun_status (E : Engine) (options : CommandLineOptions)
    (programFilename : string) (emscriptenInstance : option EmscriptenInstance)
    (rootResolver : RootResolver) (irModule : IRModule) (module : Module)
    (st st' : RunState) (status : Z) :
  linkAndRun E options programFilename emscriptenInstance rootResolver irModule
    module st = (Ok status, st') ->
  status = EXIT_FAILURE \/ entryInvoked E st' status.
Proof.
  intros Hrun.
  destruct (linkModule irModule (resolve E rootResolver) st)
    as [[linkResult | f] st1] eqn:Hlink.
  2: { unfold linkAndRun in Hrun. rewrite (bind_fatal _ _ _ _ _ Hlink) in Hrun.
       discriminate. }
  destruct (success linkResult) eqn:Hsuccess.
  - unfold linkAndRun in Hrun.
    rewrite (bind_ok _ _ _ _ _ Hlink), Hsuccess in Hrun. cbn [negb] in Hrun.
    destruct (instantiateModule_ok E module (resolvedImports linkResult)
                programFilename st1) as (instance & st2 & Hinstance & _).
    rewrite (bind_ok _ _ _ _ _ Hinstance) in Hrun.
    destruct instance as [moduleInstance |].
    + by apply (runInstance_status _ _ _ _ _ _ _ _ _ Hrun).
    + injection Hrun as <- _. by left.
  - destruct (linkAndRun_failure E options programFilename emscriptenInstance
                rootResolver irModule module st st1 linkResult Hlink Hsuccess)
      as (outs & _ & Heq).
    rewrite Heq in Hrun. injection Hrun as <- _. by left.
Qed.

(** X10.  Every status [run] returns is the failure status, unless the last
    thing the run did was to invoke the entry point: then the status is the
    one mapped from the results of that call.  So a status other than the
    failure status always comes out of the entry point. *)
Theorem run_status (E : Engine) (options : CommandLineOptions) (st st' : RunState)
    (status : Z) :
  run E options st = (Ok status, st') ->
  status = EXIT_FAILURE \/ entryInvoked E st' status.
Proof.
  intros Hrun. destruct options as [[file |] arguments].
  2: { discriminate. }
  destruct (loadModule_result E file st) as (loaded & outs & Hload & _).
  destruct loaded as [irModule |].
  - destruct (engine_emscriptenInstantiate E
                {| compartment := [];
                   trace := trace (after st outs)
                              ++ [CompileModule; CreateCompartment; CreateContext] |}
                irModule) as [emscriptenInstance c] eqn:Hshim.
    rewrite (run_links_with E file arguments st (after st outs) irModule
               emscriptenInstance c Hload Hshim) in Hrun.
    by apply (linkAndRun_status _ _ _ _ _ _ _ _ _ _ Hrun).
  - unfold run in Hrun. cbn [filename] in Hrun.
    rewrite (bind_ok _ _ _ _ _ Hload) in Hrun. injection Hrun as <- _. by left.
Qed.








(** ** The further statements at work on the sample worlds *)

Lemma scan_partition_witness :
  tokensOf {| filename := Some "a.wast"; args := ["x"; "-h"] |} = ["a.wast"; "x"; "-h"]
  /\ filename {| filename := Some "a.wast"; args := ["x"; "-h"] |} =
     head ["a.wast"; "x"; "-h"]
  /\ (forall file : string,
        filename {| filename := Some "a.wast"; args := ["x"; "-h"] |} = Some file ->
        isHelp file = false)
  /\ (forall (first : string) (others : list string),
        args {| filename := Some "a.wast"; args := ["x"; "-h"] |} = first :: others ->
        isHelp first = false).
Proof.
  exact (scan_partition ["a.wast"; "x"; "-h"]
           {| filename := Some "a.wast"; args := ["x"; "-h"] |} eq_refl).
Defined.

Lemma run_load_failure_witness :
  run (hostOf None (inr []) None) {| filename := Some "gone.wast"; args := [] |}
    initialState = (Ok EXIT_FAILURE, initialState)
  /\ run (hostOf (Some []) (inr ["unexpected token"]) None)
       {| filename := Some "bad.wast"; args := [] |} initialState =
     (Ok EXIT_FAILURE,
      after initialState
        [Output ("Error parsing WebAssembly text file:" +:+ newline);
         Output ("bad.wast: unexpected token" +:+ newline)]).
Proof.
  split.
  - apply (proj1 (run_load_failure (hostOf None (inr []) None) "gone.wast" []
                    initialState)).
    reflexivity.
  - apply (proj2 (run_load_failure (hostOf (Some []) (inr ["unexpected token"]) None)
                    "bad.wast" [] initialState) [] ["unexpected token"]);
      reflexivity.
Defined.

Lemma resolve_sound_witness :
  exists object : ObjectPtr,
    Some sampleMemory = Some object
    /\ ((exists instance : ModuleInstance,
           moduleNameToInstanceMap sampleResolver !! "env" = Some instance
           /\ exportMap instance !! "memory" = Some object
           /\ engine_isA sampleEngine (target object) (MemoryExtern sampleMemoryType)
              = true
           /\ compartment (after initialState [GetInstanceExport "memory"]) =
              compartment initialState)
        \/ (getObjectType (target object) = MemoryExtern sampleMemoryType
            /\ address object = length (compartment initialState)
            /\ compartment (after initialState [GetInstanceExport "memory"]) =
               compartment initialState ++ [target object])).
Proof.
  apply (resolve_sound sampleEngine sampleResolver "env" "memory"
           (MemoryExtern sampleMemoryType) initialState
           (after initialState [GetInstanceExport "memory"]) (Some sampleMemory)).
  vm_compute. reflexivity.
Defined.

Lemma resolve_fails_only_on_mismatch_witness :
  exists (instance : ModuleInstance) (object : ObjectPtr),
    moduleNameToInstanceMap sampleResolver !! "env" = Some instance
    /\ exportMap instance !! "memory" = Some object
    /\ engine_isA sampleEngine (target object)
         (GlobalExtern {| valueType := i32; isMutable := true |}) = false
    /\ Some sampleMemory = Some object
    /\ compartment
         (resolve sampleEngine sampleResolver "env" "memory"
            (GlobalExtern {| valueType := i32; isMutable := true |}) initialState).2 =
       compartment initialState.
Proof.
  apply (resolve_fails_only_on_mismatch sampleEngine sampleResolver "env" "memory"
           (GlobalExtern {| valueType := i32; isMutable := true |}) initialState).
  vm_compute. reflexivity.
Defined.

Lemma stubs_are_not_shared_witness :
  exists (stub1 stub2 : ObjectPtr) (st1 st2 : RunState),
    resolve sampleEngine sampleResolver "wasi" "clock"
      (GlobalExtern {| valueType := i32; isMutable := true |}) initialState =
      (Ok (true, Some stub1), st1)
    /\ resolve sampleEngine sampleResolver "wasi" "clock"
         (GlobalExtern {| valueType := i32; isMutable := true |}) st1 =
       (Ok (true, Some stub2), st2)
    /\ address stub1 = length (compartment initialState)
    /\ address stub2 = S (address stub1)
    /\ compartment st2 = compartment initialState ++ [target stub1; target stub2].
Proof.
  apply (stubs_are_not_shared sampleEngine sampleResolver "wasi" "clock" "wasi"
           "clock" (GlobalExtern {| valueType := i32; isMutable := true |})
           (GlobalExtern {| valueType := i32; isMutable := true |}) initialState);
    vm_compute; reflexivity.
Defined.

Lemma run_registry_witness :
  run sampleEngine {| filename := Some "a.wast"; args := [] |} initialState =
  linkAndRun sampleEngine {| filename := Some "a.wast"; args := [] |} "a.wast" None
    (rootResolverOf None) sampleModule {| ir := sampleModule |}
    {| compartment := [];
       trace := trace initialState
                  ++ [CompileModule; CreateCompartment; CreateContext;
                      EmscriptenInstantiate (bool_decide (is_Some (@None EmscriptenInstance)))] |}.
Proof.
  apply (proj2 (run_registry sampleEngine None) "a.wast" [] initialState initialState
           sampleModule []); reflexivity.
Defined.

Lemma unregistered_imports_are_stubbed_witness :
  exists (stubs : list ObjectPtr) (events : list Event),
    linkModule needyModule (resolve sampleEngine sampleResolver) initialState =
      (Ok {| resolvedImports := map Some stubs; missingImports := [];
             success := true |},
       after (grown initialState (map target stubs)) events)
    /\ Forall2 (fun (import : Import) (stub : ObjectPtr) =>
                  getObjectType (target stub) = importType import)
         (imports needyModule) stubs
    /\ map address stubs =
       seq (length (compartment initialState)) (length (imports needyModule)).
Proof.
  apply (unregistered_imports_are_stubbed sampleEngine sampleResolver needyModule
           initialState).
  repeat constructor; vm_compute; reflexivity.
Defined.


Lemma run_status_witness :
  7%Z = EXIT_FAILURE
  \/ entryInvoked sampleEngine
       (run sampleEngine {| filename := Some "a.wast"; args := [] |} initialState).2
       7%Z.
Proof.
  apply (run_status sampleEngine {| filename := Some "a.wast"; args := [] |}
           initialState).
  vm_compute. reflexivity.
Defined.


Lemma no_fallback_on_unsupported_main_witness :
  exists text : string,
    callMain sampleEngine {| filename := Some "a.wast"; args := [] |} "a.wast" None
      sampleUnaryInstance initialState =
    (Ok EXIT_FAILURE, after initialState [GetInstanceExport "main"; Output text]).
Proof.
  apply (no_fallback_on_unsupported_main sampleEngine
           {| filename := Some "a.wast"; args := [] |} "a.wast" None
           sampleUnaryInstance (sampleFunction "main" 1) initialState).
  - vm_compute. reflexivity.
  - cbn. lia.
  - cbn. lia.
Defined.
